(** * Hospital billing store: a shallow embedding of [src/main.py]

    The development follows the Python source class by class: [Patient],
    [Service], [Bill] and [HospitalBillingSystem] each get a module that
    keeps the names of the methods it embeds.

    Modelling choices, each stated where it is made:
    - numbers ([price], [total_amount]) are any type with Python's [0] and
      [+]; binary64 floats are the instance the examples run on;
    - a Python [dict] is an association list in insertion order;
    - [Service] objects live in an object store and are held by reference,
      because the service registry and the bills share them;
    - the backing file is the JSON value [json.load] returns, with a field
      of a JSON object being optional (a missing key raises [KeyError]);
    - console output ([print]) and the menu loop [main] are not modelled;
      the clock read by [create_bill] is an argument. *)

From Stdlib Require Import ZArith List String Bool Lia.
From Stdlib Require Import Floats.PrimFloat.
Import ListNotations.

Local Open Scope Z_scope.

(** ** Numbers *)

(** What the source needs of a number: the [0] that [sum] starts from and
    [+]. Nothing is assumed of them (float addition is not associative). *)
Class Number (num : Type) := {
  num_zero : num;
  num_add : num -> num -> num
}.

(** Python's [sum(xs)]: [0 + x1 + x2 + ...], from the left. (CPython from
    3.12 on adds floats with a compensated sum, which rounds some sums
    differently; the sums of the examples are exact either way.) *)
Definition py_sum {num : Type} `{Number num} (xs : list num) : num :=
  fold_left num_add xs num_zero.

(** Python floats are IEEE 754 binary64, as are the kernel's. *)
#[export] Instance float_Number : Number float := {
  num_zero := 0%float;
  num_add := PrimFloat.add
}.

(** JSON integers ([int] in Python). *)
#[export] Instance Z_Number : Number Z := {
  num_zero := 0;
  num_add := Z.add
}.

(** ** Exceptions *)

Inductive exn : Type :=
| KeyError (key : string)
| ValueError
| JSONDecodeError.

Inductive result (A : Type) : Type :=
| Ok (a : A)
| Raise (e : exn).

Arguments Ok {A} a.
Arguments Raise {A} e.

Definition bind {A B : Type} (r : result A) (k : A -> result B) : result B :=
  match r with
  | Ok a => k a
  | Raise e => Raise e
  end.

Declare Scope py_scope.
Delimit Scope py_scope with py.
Notation "x <- r ;; k" := (bind r (fun x => k))
  (at level 61, r at next level, right associativity) : py_scope.
Notation "' pat <- r ;; k" := (bind r (fun x => match x with pat => k end))
  (at level 61, pat pattern, r at next level, right associativity) : py_scope.
Local Open Scope py_scope.

(** [data[key]] on a JSON object whose field [key] may be absent. *)
Definition subscript {A : Type} (field : option A) (key : string) : result A :=
  match field with
  | Some a => Ok a
  | None => Raise (KeyError key)
  end.

(** [data.get(key, default)]. *)
Definition get_default {A : Type} (field : option A) (default : A) : A :=
  match field with
  | Some a => a
  | None => default
  end.

(** Python's [max] of a list: [ValueError] on the empty list. *)
Definition py_max (xs : list Z) : result Z :=
  match xs with
  | [] => Raise ValueError
  | x :: rest => Ok (fold_left Z.max rest x)
  end.

(** ** Dictionaries *)

(** A [dict] with integer keys, in insertion order. Assigning to a key that
    is present replaces its value where it stands; a new key goes last. *)
Module Dict.

Definition t (V : Type) : Type := list (Z * V).

Definition empty {V : Type} : t V := [].

Fixpoint get {V : Type} (k : Z) (d : t V) : option V :=
  match d with
  | [] => None
  | (k', v) :: d' => if Z.eqb k k' then Some v else get k d'
  end.

(** [k in d]. *)
Definition contains {V : Type} (k : Z) (d : t V) : bool :=
  match get k d with
  | Some _ => true
  | None => false
  end.

(** [d[k] = v]. *)
Fixpoint set {V : Type} (k : Z) (v : V) (d : t V) : t V :=
  match d with
  | [] => [(k, v)]
  | (k', v') :: d' =>
      if Z.eqb k k' then (k', v) :: d' else (k', v') :: set k v d'
  end.

Definition keys {V : Type} (d : t V) : list Z := map fst d.

Definition values {V : Type} (d : t V) : list V := map snd d.

End Dict.

(** ** Patient *)

Module Patient.

Record t : Type := __init__ {
  patient_id : Z;
  name : string;
  contact : string
}.

(** The JSON object of a patient. *)
Record dict : Type := Dict {
  key_patient_id : option Z;
  key_name : option string;
  key_contact : option string
}.

Definition to_dict (self : t) : dict :=
  {| key_patient_id := Some (patient_id self);
     key_name := Some (name self);
     key_contact := Some (contact self) |}.

Definition from_dict (data : dict) : result t :=
  i <- subscript (key_patient_id data) "patient_id" ;;
  n <- subscript (key_name data) "name" ;;
  c <- subscript (key_contact data) "contact" ;;
  Ok (__init__ i n c).

End Patient.

(** ** Service *)

Module Service.

Record t {num : Type} : Type := __init__ {
  service_id : Z;
  name : string;
  price : num
}.
Arguments t : clear implicits.
Arguments __init__ {num} service_id name price.

(** The JSON object of a service. *)
Record dict {num : Type} : Type := Dict {
  key_service_id : option Z;
  key_name : option string;
  key_price : option num
}.
Arguments dict : clear implicits.
Arguments Dict {num} key_service_id key_name key_price.

Definition to_dict {num : Type} (self : t num) : dict num :=
  {| key_service_id := Some (service_id self);
     key_name := Some (name self);
     key_price := Some (price self) |}.

(** The fields [Service.from_dict] hands to the constructor; the object
    itself is allocated by [Heap.new_service]. *)
Definition from_dict {num : Type} (data : dict num) : result (t num) :=
  i <- subscript (key_service_id data) "service_id" ;;
  n <- subscript (key_name data) "name" ;;
  p <- subscript (key_price data) "price" ;;
  Ok (__init__ i n p).

End Service.

(** ** The object store *)

(** A [Service] object is reached from two places once it is billed: the
    service registry and the bill's [services_rendered] list hold the same
    object. So [Service] objects are kept in a store and named by their
    location; constructing one appends it. Patients and bills are reached
    from their registry only and are kept as values. *)
Module Heap.

Definition loc : Type := nat.

Definition t (num : Type) : Type := list (Service.t num).

(** [Service(...)]: a new object, at a location not used before. *)
Definition new_service {num : Type} (s : Service.t num) (h : t num)
  : loc * t num :=
  (List.length h, h ++ [s]).

(** Python has no dangling reference; a location outside the store reads
    as an object that is never constructed, so that [deref] is total. *)
Definition deref {num : Type} `{Number num} (h : t num) (l : loc)
  : Service.t num :=
  nth l h (Service.__init__ 0 "" num_zero).

(** [obj.price = p] and [obj.name = n] on the object at [l]: attribute
    assignment changes the object in place, for every holder of it. *)
Fixpoint update {num : Type} (l : loc) (f : Service.t num -> Service.t num)
  (h : t num) : t num :=
  match h, l with
  | [], _ => []
  | s :: h', O => f s :: h'
  | s :: h', S l' => s :: update l' f h'
  end.

Definition set_price {num : Type} (l : loc) (p : num) (h : t num) : t num :=
  update l (fun s => Service.__init__ (Service.service_id s) (Service.name s) p) h.

Definition set_name {num : Type} (l : loc) (n : string) (h : t num) : t num :=
  update l (fun s => Service.__init__ (Service.service_id s) n (Service.price s)) h.

End Heap.

(** ** Bill *)

Module Bill.

(** [services_rendered] is a Python list of [Service] objects: the
    locations of the objects, in order. *)
Record t {num : Type} : Type := mk {
  bill_id : Z;
  patient_id : Z;
  services_rendered : list Heap.loc;
  bill_date : string;
  total_amount : num
}.
Arguments t : clear implicits.
Arguments mk {num} bill_id patient_id services_rendered bill_date total_amount.

(** [sum(service.price for service in self.services_rendered)]; it runs
    inside the constructor, on the list the constructor was given. *)
Definition calculate_total {num : Type} `{Number num} (h : Heap.t num)
  (services_rendered : list Heap.loc) : num :=
  py_sum (map (fun service => Service.price (Heap.deref h service))
              services_rendered).

Definition __init__ {num : Type} `{Number num} (h : Heap.t num)
  (bill_id patient_id : Z) (services_rendered : list Heap.loc)
  (bill_date : string) : t num :=
  mk bill_id patient_id services_rendered bill_date
     (calculate_total h services_rendered).

(** The JSON object of a bill. *)
Record dict {num : Type} : Type := Dict {
  key_bill_id : option Z;
  key_patient_id : option Z;
  key_services_rendered : option (list (Service.dict num));
  key_bill_date : option string;
  key_total_amount : option num
}.
Arguments dict : clear implicits.
Arguments Dict {num} key_bill_id key_patient_id key_services_rendered
  key_bill_date key_total_amount.

Definition to_dict {num : Type} `{Number num} (h : Heap.t num) (self : t num)
  : dict num :=
  {| key_bill_id := Some (bill_id self);
     key_patient_id := Some (patient_id self);
     key_services_rendered :=
       Some (map (fun service => Service.to_dict (Heap.deref h service))
                 (services_rendered self));
     key_bill_date := Some (bill_date self);
     key_total_amount := Some (total_amount self) |}.

(** [[Service.from_dict(s) for s in ds]]: one new object per element. *)
Fixpoint new_services {num : Type} (ds : list (Service.dict num))
  (h : Heap.t num) : result (list Heap.loc * Heap.t num) :=
  match ds with
  | [] => Ok ([], h)
  | s :: rest =>
      v <- Service.from_dict s ;;
      let (l, h1) := Heap.new_service v h in
      '(ls, h2) <- new_services rest h1 ;;
      Ok (l :: ls, h2)
  end.

(** [data['total_amount']] is not read. *)
Definition from_dict {num : Type} `{Number num} (data : dict num)
  (h : Heap.t num) : result (t num * Heap.t num) :=
  ds <- subscript (key_services_rendered data) "services_rendered" ;;
  '(services, h') <- new_services ds h ;;
  i <- subscript (key_bill_id data) "bill_id" ;;
  p <- subscript (key_patient_id data) "patient_id" ;;
  d <- subscript (key_bill_date data) "bill_date" ;;
  Ok (__init__ h' i p services d, h').

(** The line items as a reader of the bill sees them. *)
Definition line_items {num : Type} `{Number num} (h : Heap.t num) (self : t num)
  : list (Service.t num) :=
  map (Heap.deref h) (services_rendered self).

End Bill.

(** ** Values returned by the store's methods *)

Inductive value {num : Type} : Type :=
| PyNone
| PyPatient (p : Patient.t)
| PyService (service : Heap.loc)
| PyBill (b : Bill.t num).
Arguments value : clear implicits.

(** Truth value of an object: [None] is false, an instance of a class
    without [__bool__] or [__len__] is true. *)
Definition truthy {num : Type} (v : value num) : bool :=
  match v with
  | PyNone => false
  | _ => true
  end.

(** ** HospitalBillingSystem *)

Module HospitalBillingSystem.

(** The store's attributes, with the [Service] objects it can reach. *)
Record t {num : Type} : Type := mk {
  objects : Heap.t num;
  patients : Dict.t Patient.t;
  services : Dict.t Heap.loc;
  bills : Dict.t (Bill.t num);
  next_patient_id : Z;
  next_service_id : Z;
  next_bill_id : Z
}.
Arguments t : clear implicits.
Arguments mk {num} objects patients services bills
  next_patient_id next_service_id next_bill_id.

(** The JSON document of the backing file; [data.get(key, [])] lets each
    top-level array be absent. *)
Record document {num : Type} : Type := Document {
  key_patients : option (list Patient.dict);
  key_services : option (list (Service.dict num));
  key_bills : option (list (Bill.dict num))
}.
Arguments document : clear implicits.
Arguments Document {num} key_patients key_services key_bills.

(** What is found at [data_file]: nothing, text that is not JSON, or a
    document. [json.dump] followed by [json.load] is taken to give the
    document back. *)
Inductive file {num : Type} : Type :=
| Missing
| Malformed
| Json (data : document num).
Arguments file : clear implicits.

(** [{p['patient_id']: Patient.from_dict(p) for p in ps}], the dictionary
    built so far in [acc]. *)
Fixpoint load_patients (ps : list Patient.dict) (acc : Dict.t Patient.t)
  : result (Dict.t Patient.t) :=
  match ps with
  | [] => Ok acc
  | p :: rest =>
      k <- subscript (Patient.key_patient_id p) "patient_id" ;;
      v <- Patient.from_dict p ;;
      load_patients rest (Dict.set k v acc)
  end.

(** [{s['service_id']: Service.from_dict(s) for s in ss}]. *)
Fixpoint load_services {num : Type} (ss : list (Service.dict num))
  (acc : Dict.t Heap.loc) (h : Heap.t num)
  : result (Dict.t Heap.loc * Heap.t num) :=
  match ss with
  | [] => Ok (acc, h)
  | s :: rest =>
      k <- subscript (Service.key_service_id s) "service_id" ;;
      v <- Service.from_dict s ;;
      let (l, h1) := Heap.new_service v h in
      load_services rest (Dict.set k l acc) h1
  end.

(** [{b['bill_id']: Bill.from_dict(b) for b in bs}]. *)
Fixpoint load_bills {num : Type} `{Number num} (bs : list (Bill.dict num))
  (acc : Dict.t (Bill.t num)) (h : Heap.t num)
  : result (Dict.t (Bill.t num) * Heap.t num) :=
  match bs with
  | [] => Ok (acc, h)
  | b :: rest =>
      k <- subscript (Bill.key_bill_id b) "bill_id" ;;
      '(v, h1) <- Bill.from_dict b h ;;
      load_bills rest (Dict.set k v acc) h1
  end.

(** An exception raised here leaves [__init__], so no store results from
    it: the attributes assigned before it are not kept. *)
Definition load_data {num : Type} `{Number num} (f : file num) (self : t num)
  : result (t num) :=
  match f with
  | Missing => Ok self
  | Malformed => Raise JSONDecodeError
  | Json data =>
      ps <- load_patients (get_default (key_patients data) []) Dict.empty ;;
      '(ss, h1) <- load_services (get_default (key_services data) [])
                     Dict.empty (objects self) ;;
      '(bs, h2) <- load_bills (get_default (key_bills data) []) Dict.empty h1 ;;
      np <- py_max (Dict.keys ps ++ [1]) ;;
      ns <- py_max (Dict.keys ss ++ [1]) ;;
      nb <- py_max (Dict.keys bs ++ [1]) ;;
      Ok (mk h2 ps ss bs (np + 1) (ns + 1) (nb + 1))
  end.

(** The attributes [__init__] assigns before it calls [load_data]. *)
Definition fresh {num : Type} : t num :=
  mk [] Dict.empty Dict.empty Dict.empty 1 1 1.

Definition __init__ {num : Type} `{Number num} (f : file num) : result (t num) :=
  load_data f fresh.

(** The document [save_data] writes; the file then holds [Json] of it. *)
Definition save_data {num : Type} `{Number num} (self : t num) : document num :=
  {| key_patients := Some (map Patient.to_dict (Dict.values (patients self)));
     key_services :=
       Some (map (fun s => Service.to_dict (Heap.deref (objects self) s))
                 (Dict.values (services self)));
     key_bills :=
       Some (map (Bill.to_dict (objects self)) (Dict.values (bills self))) |}.

(** *** Patient management *)

Definition add_patient {num : Type} (name contact : string) (self : t num)
  : value num * t num :=
  let patient_id := next_patient_id self in
  let patient := Patient.__init__ patient_id name contact in
  (PyNone,
   mk (objects self)
      (Dict.set patient_id patient (patients self))
      (services self) (bills self)
      (next_patient_id self + 1) (next_service_id self) (next_bill_id self)).

Definition get_patient {num : Type} (patient_id : Z) (self : t num)
  : value num :=
  match Dict.get patient_id (patients self) with
  | Some p => PyPatient p
  | None => PyNone
  end.

(** *** Service management *)

Definition add_service {num : Type} (name : string) (price : num)
  (self : t num) : value num * t num :=
  let service_id := next_service_id self in
  let (service, h) :=
    Heap.new_service (Service.__init__ service_id name price) (objects self) in
  (PyNone,
   mk h (patients self)
      (Dict.set service_id service (services self))
      (bills self)
      (next_patient_id self) (next_service_id self + 1) (next_bill_id self)).

Definition get_service {num : Type} (service_id : Z) (self : t num)
  : value num :=
  match Dict.get service_id (services self) with
  | Some s => PyService s
  | None => PyNone
  end.

(** *** Billing *)

(** The [for s_id in service_ids] loop, [services_to_bill] being the list
    it appends to. [if service:] holds when [get_service] returned an
    object and fails on [None]. *)
Fixpoint collect_services {num : Type} (self : t num) (service_ids : list Z)
  (services_to_bill : list Heap.loc) : list Heap.loc :=
  match service_ids with
  | [] => services_to_bill
  | s_id :: rest =>
      match get_service s_id self with
      | PyService service =>
          collect_services self rest (services_to_bill ++ [service])
      | _ => collect_services self rest services_to_bill
      end
  end.

(** [now] is [datetime.now().strftime(...)] at the time of the call. *)
Definition create_bill {num : Type} `{Number num} (patient_id : Z)
  (service_ids : list Z) (now : string) (self : t num) : value num * t num :=
  if negb (Dict.contains patient_id (patients self)) then (PyNone, self)
  else
    let services_to_bill := collect_services self service_ids [] in
    match services_to_bill with
    | [] => (PyNone, self)
    | _ :: _ =>
        let bill_id := next_bill_id self in
        let bill_date := now in
        let bill :=
          Bill.__init__ (objects self) bill_id patient_id services_to_bill
                        bill_date in
        (PyBill bill,
         mk (objects self) (patients self) (services self)
            (Dict.set bill_id bill (bills self))
            (next_patient_id self) (next_service_id self)
            (next_bill_id self + 1))
    end.

Definition get_bill {num : Type} (bill_id : Z) (self : t num) : value num :=
  match Dict.get bill_id (bills self) with
  | Some b => PyBill b
  | None => PyNone
  end.

End HospitalBillingSystem.

Module HBS := HospitalBillingSystem.

(** ** Calls and reachable stores *)

(** The mutating methods a caller of the store has. *)
Inductive call {num : Type} : Type :=
| AddPatient (name contact : string)
| AddService (name : string) (price : num)
| CreateBill (patient_id : Z) (service_ids : list Z) (now : string).
Arguments call : clear implicits.

Definition run {num : Type} `{Number num} (c : call num) (s : HBS.t num)
  : value num * HBS.t num :=
  match c with
  | AddPatient name contact => HBS.add_patient name contact s
  | AddService name price => HBS.add_service name price s
  | CreateBill patient_id service_ids now =>
      HBS.create_bill patient_id service_ids now s
  end.

(** The stores a program can hold: the attributes [__init__] sets, then
    any number of loads that return, from the files [allowed], and of
    calls. *)
Inductive reachable_with {num : Type} `{Number num}
  (allowed : HBS.file num -> Prop) : HBS.t num -> Prop :=
| reach_fresh : reachable_with allowed HBS.fresh
| reach_load f s s' :
    allowed f -> reachable_with allowed s -> HBS.load_data f s = Ok s' ->
    reachable_with allowed s'
| reach_call c s :
    reachable_with allowed s -> reachable_with allowed (snd (run c s)).

(** Whatever the backing file holds. *)
Definition reachable {num : Type} `{Number num} : HBS.t num -> Prop :=
  reachable_with (fun _ => True).

(** The calls of a list, one after the other, with what each returns. *)
Fixpoint run_all {num : Type} `{Number num} (cs : list (call num))
  (s : HBS.t num) : list (value num) * HBS.t num :=
  match cs with
  | [] => ([], s)
  | c :: rest =>
      let (v, s1) := run c s in
      let (vs, s2) := run_all rest s1 in
      (v :: vs, s2)
  end.

(** ** Notions of the specification *)

(** The ids [n], [n+1], ... ([count] of them). *)
Fixpoint consecutive (n : Z) (count : nat) : list Z :=
  match count with
  | O => []
  | S c => n :: consecutive (n + 1) c
  end.

(** [max(ids, 1)]: the largest of the ids and 1. *)
Definition max_or_1 (ids : list Z) : Z := fold_right Z.max 1 ids.

(** The values of a key in the objects of an array that have it. *)
Definition present {A : Type} (fields : list (option A)) : list A :=
  flat_map (fun o => match o with Some a => [a] | None => [] end) fields.

(** The ids of each kind in a document. *)
Definition patient_ids {num : Type} (data : HBS.document num) : list Z :=
  present (map Patient.key_patient_id (get_default (HBS.key_patients data) [])).

Definition service_ids {num : Type} (data : HBS.document num) : list Z :=
  present (map Service.key_service_id (get_default (HBS.key_services data) [])).

Definition bill_ids {num : Type} (data : HBS.document num) : list Z :=
  present (map Bill.key_bill_id (get_default (HBS.key_bills data) [])).

(** The service ids of [service_ids] that the registry knows, in the order
    given and as often as given. *)
Definition known_ids {num : Type} (s : HBS.t num) (service_ids : list Z)
  : list Z :=
  filter (fun s_id => Dict.contains s_id (HBS.services s)) service_ids.

(** The object registered under a service id (for an id that is not
    registered, which [known_ids] never yields, the read falls outside
    the store). *)
Definition service_at {num : Type} `{Number num} (s : HBS.t num) (s_id : Z)
  : Service.t num :=
  match Dict.get s_id (HBS.services s) with
  | Some l => Heap.deref (HBS.objects s) l
  | None => Heap.deref (HBS.objects s) (List.length (HBS.objects s))
  end.

(** A store read field for field: every registry with its keys in order,
    a service as its three fields, a bill with its line items. *)
Record bill_fields {num : Type} : Type := BillFields {
  f_bill_id : Z;
  f_patient_id : Z;
  f_line_items : list (Service.t num);
  f_bill_date : string;
  f_total_amount : num
}.
Arguments bill_fields : clear implicits.
Arguments BillFields {num} f_bill_id f_patient_id f_line_items f_bill_date
  f_total_amount.

Definition read_bill {num : Type} `{Number num} (h : Heap.t num)
  (b : Bill.t num) : bill_fields num :=
  BillFields (Bill.bill_id b) (Bill.patient_id b) (Bill.line_items h b)
             (Bill.bill_date b) (Bill.total_amount b).

Definition read_patients {num : Type} (s : HBS.t num) : list (Z * Patient.t) :=
  HBS.patients s.

(** A registry of services and one of bills, each entry read in the
    object store [h]. *)
Definition services_in {num : Type} `{Number num} (h : Heap.t num)
  (d : Dict.t Heap.loc) : list (Z * Service.t num) :=
  map (fun kv => (fst kv, Heap.deref h (snd kv))) d.

Definition bills_in {num : Type} `{Number num} (h : Heap.t num)
  (d : Dict.t (Bill.t num)) : list (Z * bill_fields num) :=
  map (fun kv => (fst kv, read_bill h (snd kv))) d.

Definition read_services {num : Type} `{Number num} (s : HBS.t num)
  : list (Z * Service.t num) :=
  services_in (HBS.objects s) (HBS.services s).

Definition read_bills {num : Type} `{Number num} (s : HBS.t num)
  : list (Z * bill_fields num) :=
  bills_in (HBS.objects s) (HBS.bills s).

Definition counters {num : Type} (s : HBS.t num) : Z * Z * Z :=
  (HBS.next_patient_id s, HBS.next_service_id s, HBS.next_bill_id s).

(** The objects the registry holds for the ids it knows. *)
Definition resolved {num : Type} (s : HBS.t num) (service_ids : list Z)
  : list Heap.loc :=
  flat_map (fun s_id => match Dict.get s_id (HBS.services s) with
                        | Some l => [l]
                        | None => []
                        end) service_ids.

(** ** The invariant of reachable stores *)

(** Every patient is filed under its own id. *)
Definition patients_ok (d : Dict.t Patient.t) : Prop :=
  NoDup (Dict.keys d) /\
  forall k p, In (k, p) d -> Patient.patient_id p = k.

(** Every registered service is an object of the store, filed under its
    own id. *)
Definition services_ok {num : Type} `{Number num} (h : Heap.t num)
  (d : Dict.t Heap.loc) : Prop :=
  NoDup (Dict.keys d) /\
  forall k l, In (k, l) d ->
    (l < List.length h)%nat /\ Service.service_id (Heap.deref h l) = k.

(** A bill is filed under its own id, its line items are objects of the
    store, and its total is the sum of their prices. *)
Definition bill_ok {num : Type} `{Number num} (h : Heap.t num) (k : Z)
  (b : Bill.t num) : Prop :=
  Bill.bill_id b = k /\
  Forall (fun l => (l < List.length h)%nat) (Bill.services_rendered b) /\
  Bill.total_amount b = Bill.calculate_total h (Bill.services_rendered b).

Definition bills_ok {num : Type} `{Number num} (h : Heap.t num)
  (d : Dict.t (Bill.t num)) : Prop :=
  NoDup (Dict.keys d) /\ forall k b, In (k, b) d -> bill_ok h k b.

(** A counter is 1 over an empty registry that was never loaded, and one
    more than the largest of the ids and 1 otherwise. *)
Definition counter_ok (n : Z) (ids : list Z) : Prop :=
  (ids = [] /\ n = 1) \/ n = max_or_1 ids + 1.

Record invariant {num : Type} `{Number num} (s : HBS.t num) : Prop := {
  inv_patients : patients_ok (HBS.patients s);
  inv_services : services_ok (HBS.objects s) (HBS.services s);
  inv_bills : bills_ok (HBS.objects s) (HBS.bills s);
  inv_next_patient : counter_ok (HBS.next_patient_id s) (Dict.keys (HBS.patients s));
  inv_next_service : counter_ok (HBS.next_service_id s) (Dict.keys (HBS.services s));
  inv_next_bill : counter_ok (HBS.next_bill_id s) (Dict.keys (HBS.bills s))
}.

(** The calls that add the patients, the services, and that bill the
    requests of a list, in order. *)
Definition add_patients {num : Type} (people : list (string * string))
  : list (call num) :=
  map (fun person => AddPatient (fst person) (snd person)) people.

Definition add_services {num : Type} (items : list (string * num))
  : list (call num) :=
  map (fun item => AddService (fst item) (snd item)) items.

Definition create_bills {num : Type} (requests : list (Z * list Z * string))
  : list (call num) :=
  map (fun r => CreateBill (fst (fst r)) (snd (fst r)) (snd r)) requests.

(** How many of the calls returned an object, not [None]. *)
Definition successes {num : Type} (returned : list (value num)) : nat :=
  List.length (filter truthy returned).

(** ** Changes to a service from outside the store *)

(** The store has no method that changes a service. A caller that holds
    the object [get_service] returned can assign to its attributes: the
    object at [l] becomes [f] of itself, in place. *)
Definition assign {num : Type} (l : Heap.loc)
  (f : Service.t num -> Service.t num) (s : HBS.t num) : HBS.t num :=
  HBS.mk (Heap.update l f (HBS.objects s)) (HBS.patients s) (HBS.services s)
         (HBS.bills s) (HBS.next_patient_id s) (HBS.next_service_id s)
         (HBS.next_bill_id s).

(** Or it can file a new object under the id:
    [services[k] = Service(k, name, price)]. *)
Definition replace_service {num : Type} (k : Z) (v : Service.t num)
  (s : HBS.t num) : HBS.t num :=
  let (l, h) := Heap.new_service v (HBS.objects s) in
  HBS.mk h (HBS.patients s) (Dict.set k l (HBS.services s)) (HBS.bills s)
         (HBS.next_patient_id s) (HBS.next_service_id s) (HBS.next_bill_id s).

(** The line item at [l'] after the object at [l] became [f] of itself. *)
Definition changed_item {num : Type} `{Number num} (h : Heap.t num)
  (l : Heap.loc) (f : Service.t num -> Service.t num) (l' : Heap.loc)
  : Service.t num :=
  if Nat.eqb l' l then f (Heap.deref h l') else Heap.deref h l'.

(** The counter a registry gets on the load that follows a save. *)
Definition reloaded_counter {V : Type} (registry : Dict.t V) (counter : Z) : Z :=
  match registry with
  | [] => 2
  | _ :: _ => counter
  end.

(** ** Documents *)

(** A document that has every key [load_data] subscripts: the three keys
    of a patient and of a service, and of a bill all but
    ['total_amount']. *)
Definition patient_complete (p : Patient.dict) : Prop :=
  Patient.key_patient_id p <> None /\ Patient.key_name p <> None /\
  Patient.key_contact p <> None.

Definition service_complete {num : Type} (x : Service.dict num) : Prop :=
  Service.key_service_id x <> None /\ Service.key_name x <> None /\
  Service.key_price x <> None.

Definition bill_complete {num : Type} (b : Bill.dict num) : Prop :=
  Bill.key_bill_id b <> None /\ Bill.key_patient_id b <> None /\
  Bill.key_bill_date b <> None /\
  exists ds, Bill.key_services_rendered b = Some ds /\
             Forall service_complete ds.

Definition complete {num : Type} (data : HBS.document num) : Prop :=
  Forall patient_complete (get_default (HBS.key_patients data) []) /\
  Forall service_complete (get_default (HBS.key_services data) []) /\
  Forall bill_complete (get_default (HBS.key_bills data) []).

(** The prices of the line items a bill of the file lists. *)
Definition stored_prices {num : Type} (b : Bill.dict num) : list num :=
  present (map Service.key_price
               (get_default (Bill.key_services_rendered b) [])).

(** The bill of the file with another value, or none, under
    ['total_amount']. *)
Definition with_total {num : Type} (stored : option num) (b : Bill.dict num)
  : Bill.dict num :=
  Bill.Dict (Bill.key_bill_id b) (Bill.key_patient_id b)
            (Bill.key_services_rendered b) (Bill.key_bill_date b) stored.

(** Every bill of the registry has a line item. *)
Definition bills_nonempty {num : Type} (s : HBS.t num) : Prop :=
  forall k b, In (k, b) (HBS.bills s) -> Bill.services_rendered b <> [].

(** A backing file none of whose bills has an empty ['services_rendered']. *)
Definition billed_file {num : Type} (f : HBS.file num) : Prop :=
  match f with
  | HBS.Json data =>
      Forall (fun b => Bill.key_services_rendered b <> Some [])
             (get_default (HBS.key_bills data) [])
  | _ => True
  end.

(** ** Reading a file record by record *)

(** The key a subscript raises for, if the field is absent. *)
Definition missing {A : Type} (field : option A) (key : string) : list string :=
  match field with
  | Some _ => []
  | None => [key]
  end.

(** The keys a record lacks, in the order [load_data] subscripts them:
    the comprehension's key first, then the arguments of the constructor
    from left to right; for a bill, ['bill_id'], then the line items, then
    ['patient_id'] and ['bill_date']. *)
Definition patient_missing (p : Patient.dict) : list string :=
  missing (Patient.key_patient_id p) "patient_id"
  ++ missing (Patient.key_name p) "name"
  ++ missing (Patient.key_contact p) "contact".

Definition service_missing {num : Type} (x : Service.dict num) : list string :=
  missing (Service.key_service_id x) "service_id"
  ++ missing (Service.key_name x) "name"
  ++ missing (Service.key_price x) "price".

Definition bill_missing {num : Type} (b : Bill.dict num) : list string :=
  missing (Bill.key_bill_id b) "bill_id"
  ++ match Bill.key_services_rendered b with
     | Some ds => flat_map service_missing ds
     | None => ["services_rendered"%string]
     end
  ++ missing (Bill.key_patient_id b) "patient_id"
  ++ missing (Bill.key_bill_date b) "bill_date".

Definition document_missing {num : Type} (data : HBS.document num)
  : list string :=
  flat_map patient_missing (get_default (HBS.key_patients data) [])
  ++ flat_map service_missing (get_default (HBS.key_services data) [])
  ++ flat_map bill_missing (get_default (HBS.key_bills data) []).

(** The last element of a list that satisfies [f]. *)
Fixpoint last_with {A : Type} (f : A -> bool) (l : list A) : option A :=
  match l with
  | [] => None
  | x :: rest =>
      match last_with f rest with
      | Some y => Some y
      | None => if f x then Some x else None
      end
  end.

(** The field of a record is the id [k]. *)
Definition has_id (k : Z) (field : option Z) : bool :=
  match field with
  | Some i => Z.eqb i k
  | None => false
  end.

(** A bill of a file with the sum of its line items' prices as total. *)
Definition recompute_total {num : Type} `{Number num} (b : Bill.dict num)
  : Bill.dict num :=
  with_total (Some (py_sum (stored_prices b))) b.

(** A document with its three arrays present and every total recomputed. *)
Definition normalised {num : Type} `{Number num} (data : HBS.document num)
  : HBS.document num :=
  HBS.Document
    (Some (get_default (HBS.key_patients data) []))
    (Some (get_default (HBS.key_services data) []))
    (Some (map recompute_total (get_default (HBS.key_bills data) []))).

(** Every bill of the registry is for a patient of the registry. *)
Definition bills_reference_patients {num : Type} (s : HBS.t num) : Prop :=
  forall k b, In (k, b) (HBS.bills s) ->
    Dict.contains (Bill.patient_id b) (HBS.patients s) = true.

(** A backing file every bill of which is for a patient of the file. *)
Definition consistent_file {num : Type} (f : HBS.file num) : Prop :=
  match f with
  | HBS.Json data =>
      Forall (fun b => forall p, Bill.key_patient_id b = Some p ->
                                 In p (patient_ids data))
             (get_default (HBS.key_bills data) [])
  | _ => True
  end.

(** ** Sample data *)

(** The store of the spec's example: one patient, X-Ray at 100.0 and
    Consult at 50.0, built by the store's own methods. *)
Definition example_store : HBS.t float :=
  snd (HBS.add_service "Consult" 50%float
    (snd (HBS.add_service "X-Ray" 100%float
      (snd (HBS.add_patient "Ann" "555-0100" HBS.fresh))))).

(** A file whose one bill stores a total (999.0) that is not the sum of
    its line items (100.0 + 50.0). *)
Definition tampered_bill : Bill.dict float :=
  Bill.Dict (Some 1) (Some 1)
    (Some [Service.Dict (Some 1) (Some "X-Ray"%string) (Some 100%float);
           Service.Dict (Some 2) (Some "Consult"%string) (Some 50%float)])
    (Some "2024-01-01 10:00:00"%string) (Some 999%float).

Definition tampered_file : HBS.document float :=
  HBS.Document
    (Some [Patient.Dict (Some 1) (Some "Ann"%string) (Some "555-0100"%string)])
    (Some [Service.Dict (Some 1) (Some "X-Ray"%string) (Some 100%float);
           Service.Dict (Some 2) (Some "Consult"%string) (Some 50%float)])
    (Some [tampered_bill]).

(** A file whose one bill has no line item. *)
Definition empty_bill_file : HBS.document float :=
  HBS.Document
    (Some [Patient.Dict (Some 1) (Some "Ann"%string) (Some "555-0100"%string)])
    (Some [])
    (Some [Bill.Dict (Some 1) (Some 1) (Some [])
             (Some "2024-01-01 10:00:00"%string) (Some 0%float)]).

(** A file with two records for patient 1, and one in which the second
    service has no price and the bill no date. *)
Definition duplicate_file : HBS.document float :=
  HBS.Document
    (Some [Patient.Dict (Some 1) (Some "Ann"%string) (Some "555-0100"%string);
           Patient.Dict (Some 2) (Some "Bob"%string) (Some "555-0101"%string);
           Patient.Dict (Some 1) (Some "Anna"%string) (Some "555-0199"%string)])
    None None.

Definition incomplete_file : HBS.document float :=
  HBS.Document
    (Some [Patient.Dict (Some 1) (Some "Ann"%string) (Some "555-0100"%string)])
    (Some [Service.Dict (Some 1) (Some "X-Ray"%string) (Some 100%float);
           Service.Dict (Some 2) (Some "Consult"%string) None])
    (Some [Bill.Dict (Some 1) (Some 1) (Some []) None None]).

(** ** Proof steps *)

(** Two binary64 values that a comparison with [bound] tells apart are not
    equal. *)
Ltac float_differ bound :=
  let Heq := fresh "Heq" in
  intros Heq;
  apply (f_equal (fun x => PrimFloat.ltb x bound)) in Heq;
  vm_compute in Heq; discriminate Heq.

(** * Properties *)

(** ** Lists *)

Lemma nodup_snoc (l : list Z) (k : Z) :
  NoDup l -> ~ In k l -> NoDup (l ++ [k]).
Proof.
  induction l as [|x l IH]; simpl; intros Hnd Hn.
  - constructor; [intros []|constructor].
  - inversion Hnd as [|? ? Hx Hl]; subst. constructor.
    + rewrite in_app_iff. simpl. intros [Hin|[Heq|[]]]; [contradiction|].
      apply Hn. now left.
    + apply IH; [exact Hl|]. intros Hin. apply Hn. now right.
Qed.

(** ** Dictionaries *)

Section DictFacts.
Context {V : Type}.
Implicit Types (d : Dict.t V) (k : Z) (v : V).

Lemma dict_get_set_same k v d : Dict.get k (Dict.set k v d) = Some v.
Proof.
  induction d as [|[k' v'] d IH]; simpl.
  - now rewrite Z.eqb_refl.
  - destruct (Z.eqb_spec k k') as [->|Hne]; simpl.
    + now rewrite Z.eqb_refl.
    + destruct (Z.eqb_spec k k'); [contradiction|exact IH].
Qed.

Lemma dict_get_set_other k k' v d :
  k' <> k -> Dict.get k' (Dict.set k v d) = Dict.get k' d.
Proof.
  intros Hne. induction d as [|[k0 v0] d IH]; simpl.
  - destruct (Z.eqb_spec k' k); [contradiction|reflexivity].
  - destruct (Z.eqb_spec k k0) as [->|Hk]; simpl.
    + destruct (Z.eqb_spec k' k0); [contradiction|reflexivity].
    + destruct (Z.eqb_spec k' k0); [reflexivity|exact IH].
Qed.

Lemma dict_get_none k d : Dict.get k d = None <-> ~ In k (Dict.keys d).
Proof.
  induction d as [|[k' v'] d IH]; simpl.
  - tauto.
  - destruct (Z.eqb_spec k k') as [->|Hne].
    + split; [discriminate|]. intros Hn. exfalso. apply Hn. now left.
    + rewrite IH. split.
      * intros Hn [Heq|Hin]; [now apply Hne|now apply Hn].
      * intros Hn Hin. apply Hn. now right.
Qed.

Lemma dict_get_in k v d : Dict.get k d = Some v -> In (k, v) d.
Proof.
  induction d as [|[k' v'] d IH]; simpl; [discriminate|].
  destruct (Z.eqb_spec k k') as [->|Hne].
  - intros [= ->]. now left.
  - intros Hg. right. now apply IH.
Qed.

Lemma dict_contains_in k d : Dict.contains k d = true <-> In k (Dict.keys d).
Proof.
  unfold Dict.contains. destruct (Dict.get k d) eqn:Hg.
  - split; [intros _|reflexivity].
    apply dict_get_in in Hg. change (In (fst (k, v)) (map fst d)).
    now apply in_map.
  - apply dict_get_none in Hg. split; [discriminate|contradiction].
Qed.

(** A key that is absent goes last. *)
Lemma dict_set_absent k v d :
  ~ In k (Dict.keys d) -> Dict.set k v d = d ++ [(k, v)].
Proof.
  induction d as [|[k' v'] d IH]; simpl; [reflexivity|].
  intros Hn. destruct (Z.eqb_spec k k') as [->|Hne].
  - exfalso. apply Hn. now left.
  - f_equal. apply IH. intros Hin. apply Hn. now right.
Qed.

(** A key that is present keeps its place. *)
Lemma dict_keys_set_present k v d :
  In k (Dict.keys d) -> Dict.keys (Dict.set k v d) = Dict.keys d.
Proof.
  induction d as [|[k' v'] d IH]; simpl; [contradiction|].
  intros Hin. destruct (Z.eqb_spec k k') as [->|Hne]; simpl.
  - reflexivity.
  - f_equal. apply IH. destruct Hin as [Heq|Hin]; [congruence|exact Hin].
Qed.

Lemma dict_keys_set_in x k v d :
  In x (Dict.keys (Dict.set k v d)) <-> x = k \/ In x (Dict.keys d).
Proof.
  destruct (in_dec Z.eq_dec k (Dict.keys d)) as [Hin|Hnotin].
  - rewrite dict_keys_set_present by exact Hin.
    split; [now right|]. intros [->|Hx]; assumption.
  - rewrite dict_set_absent by exact Hnotin.
    unfold Dict.keys. rewrite map_app, in_app_iff. simpl.
    split.
    + intros [Hx|[Hx|[]]]; [now right|now left].
    + intros [->|Hx]; [right; now left|now left].
Qed.

Lemma dict_set_nodup k v d :
  NoDup (Dict.keys d) -> NoDup (Dict.keys (Dict.set k v d)).
Proof.
  intros Hnd.
  destruct (in_dec Z.eq_dec k (Dict.keys d)) as [Hin|Hnotin].
  - now rewrite dict_keys_set_present.
  - rewrite dict_set_absent by exact Hnotin.
    unfold Dict.keys. rewrite map_app. simpl.
    now apply nodup_snoc.
Qed.

Lemma dict_in_set k' v' k v d :
  In (k', v') (Dict.set k v d) -> (k' = k /\ v' = v) \/ In (k', v') d.
Proof.
  induction d as [|[k0 v0] d IH]; simpl.
  - intros [[= <- <-]|[]]. now left.
  - destruct (Z.eqb_spec k k0) as [->|Hne]; simpl.
    + intros [[= <- <-]|Hin]; [now left|right; now right].
    + intros [Heq|Hin]; [right; now left|].
      destruct (IH Hin) as [Hl|Hr]; [now left|right; now right].
Qed.

End DictFacts.

(** ** Maxima *)

Lemma fold_max_ge_init (l : list Z) (a : Z) : a <= fold_left Z.max l a.
Proof.
  revert a. induction l as [|x l IH]; intros a; simpl; [lia|].
  specialize (IH (Z.max a x)). lia.
Qed.

Lemma fold_max_ge (l : list Z) (a x : Z) : In x l -> x <= fold_left Z.max l a.
Proof.
  revert a. induction l as [|y l IH]; intros a; simpl; [contradiction|].
  intros [->|Hin]; [|now apply IH].
  pose proof (fold_max_ge_init l (Z.max a x)). lia.
Qed.

Lemma fold_max_in (l : list Z) (a : Z) :
  fold_left Z.max l a = a \/ In (fold_left Z.max l a) l.
Proof.
  revert a. induction l as [|y l IH]; intros a; simpl; [now left|].
  destruct (IH (Z.max a y)) as [Heq|Hin]; [|right; now right].
  rewrite Heq. destruct (Z.max_spec a y) as [[_ ->]|[_ ->]]; [right|]; now left.
Qed.

(** [max] returns an element that bounds the list, and only that. *)
Lemma py_max_spec (l : list Z) (m : Z) :
  py_max l = Ok m <-> In m l /\ forall x, In x l -> x <= m.
Proof.
  destruct l as [|a l]; simpl.
  - split; [discriminate|intros [[] _]].
  - split.
    + intros [= <-]. split.
      * destruct (fold_max_in l a) as [->|Hin]; [now left|now right].
      * intros x [<-|Hin]; [apply fold_max_ge_init|now apply fold_max_ge].
    + intros [Hin Hub]. f_equal. apply Z.le_antisymm.
      * destruct (fold_max_in l a) as [->|Hin']; apply Hub; [now left|now right].
      * destruct Hin as [->|Hin]; [apply fold_max_ge_init|now apply fold_max_ge].
Qed.

Lemma max_or_1_ge_1 (ids : list Z) : 1 <= max_or_1 ids.
Proof. induction ids as [|x l IH]; simpl; [lia|]. fold (max_or_1 l). lia. Qed.

Lemma max_or_1_ge (ids : list Z) (x : Z) : In x ids -> x <= max_or_1 ids.
Proof.
  induction ids as [|y l IH]; simpl; [contradiction|]. fold (max_or_1 l).
  intros [->|Hin]; [lia|]. specialize (IH Hin). lia.
Qed.

Lemma max_or_1_in (ids : list Z) : max_or_1 ids = 1 \/ In (max_or_1 ids) ids.
Proof.
  induction ids as [|y l IH]; simpl; [now left|]. fold (max_or_1 l).
  destruct (Z.max_spec y (max_or_1 l)) as [[_ ->]|[_ ->]].
  - destruct IH as [Heq|Hin]; [now left|right; now right].
  - right; now left.
Qed.

(** [max(ids + [1])] is the largest of the ids and 1. *)
Lemma py_max_with_1 (ids : list Z) : py_max (ids ++ [1]) = Ok (max_or_1 ids).
Proof.
  apply py_max_spec. split.
  - rewrite in_app_iff. destruct (max_or_1_in ids) as [->|Hin];
      [right; now left|now left].
  - intros x. rewrite in_app_iff. intros [Hin|[<-|[]]].
    + now apply max_or_1_ge.
    + apply max_or_1_ge_1.
Qed.

(** The largest id does not depend on order or repetition. *)
Lemma max_or_1_same_elements (l l' : list Z) :
  (forall x, In x l <-> In x l') -> max_or_1 l = max_or_1 l'.
Proof.
  intros Hsame. apply Z.le_antisymm.
  - destruct (max_or_1_in l) as [->|Hin]; [apply max_or_1_ge_1|].
    apply max_or_1_ge. now apply Hsame.
  - destruct (max_or_1_in l') as [->|Hin]; [apply max_or_1_ge_1|].
    apply max_or_1_ge. now apply Hsame.
Qed.

(** ** The object store *)

Section HeapFacts.
Context {num : Type} `{Number num}.
Implicit Types (h ext : Heap.t num) (l : Heap.loc).

Lemma deref_app_l h ext l :
  (l < List.length h)%nat -> Heap.deref (h ++ ext) l = Heap.deref h l.
Proof. intros Hl. unfold Heap.deref. now apply app_nth1. Qed.

Lemma deref_new h (s : Service.t num) :
  Heap.deref (h ++ [s]) (List.length h) = s.
Proof. unfold Heap.deref. now rewrite nth_middle. Qed.

Lemma calculate_total_app h ext (ls : list Heap.loc) :
  Forall (fun l => (l < List.length h)%nat) ls ->
  Bill.calculate_total (h ++ ext) ls = Bill.calculate_total h ls.
Proof.
  intros Hall. unfold Bill.calculate_total. f_equal.
  apply map_ext_in. intros l Hin. rewrite Forall_forall in Hall.
  now rewrite deref_app_l by now apply Hall.
Qed.

Lemma map_deref_app h ext (ls : list Heap.loc) :
  Forall (fun l => (l < List.length h)%nat) ls ->
  map (Heap.deref (h ++ ext)) ls = map (Heap.deref h) ls.
Proof.
  intros Hall. apply map_ext_in. intros l Hin. rewrite Forall_forall in Hall.
  now rewrite deref_app_l by now apply Hall.
Qed.

Lemma deref_update_same l f h :
  (l < List.length h)%nat ->
  Heap.deref (Heap.update l f h) l = f (Heap.deref h l).
Proof.
  unfold Heap.deref. revert l. induction h as [|s h IH]; intros [|l]; simpl;
    try lia; [reflexivity|]. intros Hl. apply IH. lia.
Qed.

Lemma deref_update_other l l' f h :
  l' <> l -> Heap.deref (Heap.update l f h) l' = Heap.deref h l'.
Proof.
  unfold Heap.deref. revert l l'.
  induction h as [|s h IH]; intros [|l] [|l'] Hne; simpl;
    try reflexivity; try congruence.
  apply IH. congruence.
Qed.

End HeapFacts.

(** ** Keeping the invariant *)

Section Invariant.
Context {num : Type} `{Number num}.
Implicit Types (h ext : Heap.t num) (s : HBS.t num).

Lemma patients_ok_set k p d :
  patients_ok d -> Patient.patient_id p = k -> patients_ok (Dict.set k p d).
Proof.
  intros [Hnd Hid] Hp. split; [now apply dict_set_nodup|].
  intros k' p' Hin. apply dict_in_set in Hin as [[-> ->]|Hin]; [exact Hp|].
  now apply Hid.
Qed.

Lemma services_ok_app h ext d : services_ok h d -> services_ok (h ++ ext) d.
Proof.
  intros [Hnd Hid]. split; [exact Hnd|]. intros k l Hin.
  destruct (Hid k l Hin) as [Hl Hk]. split.
  - rewrite length_app. lia.
  - now rewrite deref_app_l.
Qed.

Lemma services_ok_set h k l d :
  services_ok h d -> (l < List.length h)%nat ->
  Service.service_id (Heap.deref h l) = k -> services_ok h (Dict.set k l d).
Proof.
  intros [Hnd Hid] Hl Hk. split; [now apply dict_set_nodup|].
  intros k' l' Hin. apply dict_in_set in Hin as [[-> ->]|Hin]; [now split|].
  now apply Hid.
Qed.

Lemma bill_ok_app h ext k b : bill_ok h k b -> bill_ok (h ++ ext) k b.
Proof.
  intros (Hid & Hlocs & Htot). repeat split; [exact Hid| |].
  - eapply Forall_impl; [|exact Hlocs]. simpl. intros l Hl.
    rewrite length_app. lia.
  - now rewrite calculate_total_app.
Qed.

Lemma bills_ok_app h ext d : bills_ok h d -> bills_ok (h ++ ext) d.
Proof.
  intros [Hnd Hb]. split; [exact Hnd|]. intros k b Hin.
  apply bill_ok_app. now apply Hb.
Qed.

Lemma bills_ok_set h k b d :
  bills_ok h d -> bill_ok h k b -> bills_ok h (Dict.set k b d).
Proof.
  intros [Hnd Hb] Hk. split; [now apply dict_set_nodup|].
  intros k' b' Hin. apply dict_in_set in Hin as [[-> ->]|Hin]; [exact Hk|].
  now apply Hb.
Qed.

(** The counter is above every id in use, so the next id is new. *)
Lemma counter_ok_above n ids : counter_ok n ids -> forall k, In k ids -> k < n.
Proof.
  intros [[-> _]| ->] k Hin; [contradiction|].
  pose proof (max_or_1_ge ids k Hin). lia.
Qed.

Lemma counter_ok_positive n ids : counter_ok n ids -> 1 <= n.
Proof.
  intros [[_ ->]| ->]; [lia|]. pose proof (max_or_1_ge_1 ids). lia.
Qed.

Lemma counter_ok_absent n ids : counter_ok n ids -> ~ In n ids.
Proof. intros Hc Hin. pose proof (counter_ok_above n ids Hc n Hin). lia. Qed.

Lemma max_or_1_snoc_above n ids :
  1 <= n -> (forall k, In k ids -> k < n) -> max_or_1 (ids ++ [n]) = n.
Proof.
  intros Hpos Habove. apply Z.le_antisymm.
  - destruct (max_or_1_in (ids ++ [n])) as [->|Hin]; [exact Hpos|].
    apply in_app_iff in Hin as [Hin|[<-|[]]]; [|lia].
    specialize (Habove _ Hin). lia.
  - apply max_or_1_ge. rewrite in_app_iff. right. now left.
Qed.

(** Filing a record under the counter's value appends it, and the counter
    plus one is right for the registry that results. *)
Lemma dict_set_at_counter {V : Type} n (v : V) (d : Dict.t V) :
  counter_ok n (Dict.keys d) -> Dict.set n v d = d ++ [(n, v)].
Proof. intros Hc. apply dict_set_absent. now apply counter_ok_absent. Qed.

Lemma counter_ok_set {V : Type} n (v : V) (d : Dict.t V) :
  counter_ok n (Dict.keys d) -> counter_ok (n + 1) (Dict.keys (Dict.set n v d)).
Proof.
  intros Hc. right. rewrite dict_set_at_counter by exact Hc.
  unfold Dict.keys. rewrite map_app. simpl.
  rewrite max_or_1_snoc_above; [reflexivity| |].
  - now apply counter_ok_positive in Hc.
  - now apply counter_ok_above.
Qed.

End Invariant.

(** ** Reading records back *)

(** [from_dict] returns exactly on the objects [to_dict] writes. *)
Lemma patient_from_dict_inv (data : Patient.dict) (p : Patient.t) :
  Patient.from_dict data = Ok p <-> data = Patient.to_dict p.
Proof.
  split.
  - destruct data as [[i|] [n|] [c|]]; simpl; try discriminate.
    now intros [= <-].
  - intros ->. now destruct p.
Qed.

Lemma service_from_dict_inv {num : Type} (data : Service.dict num)
  (v : Service.t num) :
  Service.from_dict data = Ok v <-> data = Service.to_dict v.
Proof.
  split.
  - destruct data as [[i|] [n|] [p|]]; simpl; try discriminate.
    now intros [= <-].
  - intros ->. now destruct v.
Qed.

Section Loading.
Context {num : Type} `{Number num}.
Implicit Types (h ext : Heap.t num) (s : HBS.t num).

(** The list comprehension of [Bill.from_dict] allocates its objects one
    after the other at the end of the store. *)
Lemma new_services_inv (ds : list (Service.dict num)) h ls h' :
  Bill.new_services ds h = Ok (ls, h') <->
  exists vs, ds = map Service.to_dict vs /\ h' = h ++ vs /\
             ls = seq (List.length h) (List.length vs).
Proof.
  revert h ls h'. induction ds as [|d ds IH]; intros h ls h'; simpl.
  - split.
    + intros [= <- <-]. exists []. now rewrite app_nil_r.
    + intros ([|v vs] & Hds & -> & ->); [|discriminate].
      now rewrite app_nil_r.
  - split.
    + destruct (Service.from_dict d) as [v|e] eqn:Hd; simpl; [|discriminate].
      destruct (Bill.new_services ds (h ++ [v])) as [[ls2 h2]|e] eqn:Hrest;
        simpl; [|discriminate].
      intros [= <- <-]. apply IH in Hrest as (vs & -> & -> & ->).
      apply service_from_dict_inv in Hd as ->.
      exists (v :: vs). rewrite <- app_assoc, length_app. simpl.
      repeat split. do 2 f_equal. lia.
    + intros ([|v vs] & Hds & -> & ->); [discriminate|].
      injection Hds as -> ->.
      rewrite (proj2 (service_from_dict_inv _ v) eq_refl). simpl.
      assert (Hrest : Bill.new_services (map Service.to_dict vs) (h ++ [v])
                      = Ok (seq (List.length (h ++ [v])) (List.length vs),
                            (h ++ [v]) ++ vs))
        by (apply IH; now exists vs).
      rewrite Hrest. simpl. rewrite <- app_assoc, length_app. simpl.
      now rewrite Nat.add_1_r.
Qed.

Lemma seq_in_store h (vs : list (Service.t num)) ext :
  Forall (fun l => (l < List.length (h ++ vs ++ ext))%nat)
         (seq (List.length h) (List.length vs)).
Proof.
  apply Forall_forall. intros l Hin. apply in_seq in Hin.
  rewrite !length_app. lia.
Qed.

Lemma map_deref_seq h (vs : list (Service.t num)) :
  map (Heap.deref (h ++ vs)) (seq (List.length h) (List.length vs)) = vs.
Proof.
  revert h. induction vs as [|v vs IH]; intros h; simpl; [reflexivity|].
  f_equal.
  - unfold Heap.deref. now rewrite nth_middle.
  - replace (h ++ v :: vs) with ((h ++ [v]) ++ vs) by now rewrite <- app_assoc.
    replace (S (List.length h)) with (List.length (h ++ [v]))
      by (rewrite length_app; simpl; lia).
    apply IH.
Qed.

(** What [Bill.from_dict] returns: the objects of the line items are new,
    and the total is the sum of their prices; the stored total is not in
    the picture. *)
Lemma bill_from_dict_inv (data : Bill.dict num) h b h' :
  Bill.from_dict data h = Ok (b, h') <->
  exists i p vs d,
    Bill.key_bill_id data = Some i /\
    Bill.key_patient_id data = Some p /\
    Bill.key_services_rendered data = Some (map Service.to_dict vs) /\
    Bill.key_bill_date data = Some d /\
    h' = h ++ vs /\
    b = Bill.mk i p (seq (List.length h) (List.length vs)) d
          (py_sum (map Service.price vs)).
Proof.
  unfold Bill.from_dict. split.
  - destruct (Bill.key_services_rendered data) as [ds|]; simpl; [|discriminate].
    destruct (Bill.new_services ds h) as [[ls h2]|e] eqn:Hnew; simpl;
      [|discriminate].
    destruct (Bill.key_bill_id data) as [i|]; simpl; [|discriminate].
    destruct (Bill.key_patient_id data) as [p|]; simpl; [|discriminate].
    destruct (Bill.key_bill_date data) as [d|]; simpl; [|discriminate].
    intros [= <- <-]. apply new_services_inv in Hnew as (vs & -> & -> & ->).
    exists i, p, vs, d. repeat split.
    unfold Bill.__init__, Bill.calculate_total. f_equal.
    now rewrite <- map_map, map_deref_seq.
  - intros (i & p & vs & d & -> & -> & -> & -> & -> & ->). simpl.
    assert (Hnew : Bill.new_services (map Service.to_dict vs) h
                   = Ok (seq (List.length h) (List.length vs), h ++ vs))
      by (apply new_services_inv; now exists vs).
    rewrite Hnew. simpl.
    unfold Bill.__init__, Bill.calculate_total.
    now rewrite <- map_map, map_deref_seq.
Qed.

Lemma bill_from_dict_ok (data : Bill.dict num) h b h' k :
  Bill.from_dict data h = Ok (b, h') ->
  Bill.key_bill_id data = Some k ->
  exists ext, h' = h ++ ext /\ bill_ok h' k b.
Proof.
  intros Hb Hk.
  apply bill_from_dict_inv in Hb as (i & p & vs & d & Hi & _ & _ & _ & -> & ->).
  exists vs. split; [reflexivity|]. split; [|split].
  - simpl. congruence.
  - pose proof (seq_in_store h vs []) as Hseq. now rewrite app_nil_r in Hseq.
  - cbn [Bill.total_amount Bill.services_rendered].
    unfold Bill.calculate_total.
    now rewrite <- (map_map (Heap.deref (h ++ vs)) Service.price), map_deref_seq.
Qed.

End Loading.

(** ** The three dictionary comprehensions of [load_data] *)

Lemma load_patients_ok (ps : list Patient.dict) (acc d : Dict.t Patient.t) :
  HBS.load_patients ps acc = Ok d -> patients_ok acc -> patients_ok d.
Proof.
  revert acc. induction ps as [|p ps IH]; intros acc; simpl.
  - now intros [= <-].
  - destruct (Patient.key_patient_id p) as [k|] eqn:Hk; simpl; [|discriminate].
    destruct (Patient.from_dict p) as [v|e] eqn:Hv; simpl; [|discriminate].
    intros Hload Hacc. apply (IH _ Hload). apply patients_ok_set; [exact Hacc|].
    apply patient_from_dict_inv in Hv. subst p. simpl in Hk. congruence.
Qed.

Lemma load_patients_keys (ps : list Patient.dict) (acc d : Dict.t Patient.t) :
  HBS.load_patients ps acc = Ok d ->
  forall x, In x (Dict.keys d) <->
            In x (Dict.keys acc) \/ In x (present (map Patient.key_patient_id ps)).
Proof.
  revert acc. induction ps as [|p ps IH]; intros acc; simpl.
  - intros [= <-] x. tauto.
  - destruct (Patient.key_patient_id p) as [k|] eqn:Hk; simpl; [|discriminate].
    destruct (Patient.from_dict p) as [v|e] eqn:Hv; simpl; [|discriminate].
    intros Hload x. rewrite (IH _ Hload x), dict_keys_set_in.
    split; [intros [[->|Hx]|Hx]|intros [Hx|[->|Hx]]]; auto.
Qed.

Section LoadingRegistries.
Context {num : Type} `{Number num}.
Implicit Types (h ext : Heap.t num) (s : HBS.t num).

Lemma load_services_ok (ss : list (Service.dict num)) acc h d h' :
  HBS.load_services ss acc h = Ok (d, h') -> services_ok h acc ->
  exists ext, h' = h ++ ext /\ services_ok h' d.
Proof.
  revert acc h. induction ss as [|x ss IH]; intros acc h; simpl.
  - intros [= <- <-] Hacc. exists []. now rewrite app_nil_r.
  - destruct (Service.key_service_id x) as [k|] eqn:Hk; simpl; [|discriminate].
    destruct (Service.from_dict x) as [v|e] eqn:Hv; simpl; [|discriminate].
    intros Hload Hacc. apply IH in Hload as (ext & -> & Hd).
    + exists (v :: ext). split; [now rewrite <- app_assoc|exact Hd].
    + apply services_ok_set.
      * now apply services_ok_app.
      * rewrite length_app. simpl. lia.
      * rewrite deref_new. apply service_from_dict_inv in Hv. subst x.
        simpl in Hk. congruence.
Qed.

Lemma load_services_keys (ss : list (Service.dict num)) acc h d h' :
  HBS.load_services ss acc h = Ok (d, h') ->
  forall x, In x (Dict.keys d) <->
            In x (Dict.keys acc) \/ In x (present (map Service.key_service_id ss)).
Proof.
  revert acc h. induction ss as [|y ss IH]; intros acc h; simpl.
  - intros [= <- <-] x. tauto.
  - destruct (Service.key_service_id y) as [k|] eqn:Hk; simpl; [|discriminate].
    destruct (Service.from_dict y) as [v|e] eqn:Hv; simpl; [|discriminate].
    intros Hload x. rewrite (IH _ _ Hload x), dict_keys_set_in.
    split; [intros [[->|Hx]|Hx]|intros [Hx|[->|Hx]]]; auto.
Qed.

Lemma load_bills_ok (bs : list (Bill.dict num)) acc h d h' :
  HBS.load_bills bs acc h = Ok (d, h') -> bills_ok h acc ->
  exists ext, h' = h ++ ext /\ bills_ok h' d.
Proof.
  revert acc h. induction bs as [|x bs IH]; intros acc h; simpl.
  - intros [= <- <-] Hacc. exists []. now rewrite app_nil_r.
  - destruct (Bill.key_bill_id x) as [k|] eqn:Hk; simpl; [|discriminate].
    destruct (Bill.from_dict x h) as [[v h1]|e] eqn:Hv; simpl; [|discriminate].
    intros Hload Hacc.
    destruct (bill_from_dict_ok _ _ _ _ _ Hv Hk) as (ext1 & -> & Hvok).
    apply IH in Hload as (ext & -> & Hd).
    + exists (ext1 ++ ext). split; [now rewrite <- app_assoc|exact Hd].
    + apply bills_ok_set; [now apply bills_ok_app|exact Hvok].
Qed.

Lemma load_bills_keys (bs : list (Bill.dict num)) acc h d h' :
  HBS.load_bills bs acc h = Ok (d, h') ->
  forall x, In x (Dict.keys d) <->
            In x (Dict.keys acc) \/ In x (present (map Bill.key_bill_id bs)).
Proof.
  revert acc h. induction bs as [|y bs IH]; intros acc h; simpl.
  - intros [= <- <-] x. tauto.
  - destruct (Bill.key_bill_id y) as [k|] eqn:Hk; simpl; [|discriminate].
    destruct (Bill.from_dict y h) as [[v h1]|e] eqn:Hv; simpl; [|discriminate].
    intros Hload x. rewrite (IH _ _ Hload x), dict_keys_set_in.
    split; [intros [[->|Hx]|Hx]|intros [Hx|[->|Hx]]]; auto.
Qed.

End LoadingRegistries.

(** ** The loop of [create_bill] *)

Section Billing.
Context {num : Type} `{Number num}.
Implicit Types (h ext : Heap.t num) (s : HBS.t num).

Lemma collect_services_resolved s (service_ids : list Z) (acc : list Heap.loc) :
  HBS.collect_services s service_ids acc = acc ++ resolved s service_ids.
Proof.
  revert acc. induction service_ids as [|i ids IH]; intros acc; simpl.
  - now rewrite app_nil_r.
  - unfold HBS.get_service. destruct (Dict.get i (HBS.services s)) as [l|].
    + rewrite IH. now rewrite <- app_assoc.
    + apply IH.
Qed.

Lemma resolved_registered s (service_ids : list Z) l :
  In l (resolved s service_ids) ->
  exists k, In k service_ids /\ Dict.get k (HBS.services s) = Some l.
Proof.
  unfold resolved. rewrite in_flat_map. intros (k & Hk & Hl).
  exists k. split; [exact Hk|].
  destruct (Dict.get k (HBS.services s)) as [l'|]; [|contradiction].
  destruct Hl as [->|[]]. reflexivity.
Qed.

(** Read through the store, the resolved objects are the services of the
    known ids, one per occurrence and in the order given. *)
Lemma resolved_known s (service_ids : list Z) :
  map (Heap.deref (HBS.objects s)) (resolved s service_ids)
  = map (service_at s) (known_ids s service_ids).
Proof.
  induction service_ids as [|i ids IH]; simpl; [reflexivity|].
  unfold Dict.contains.
  destruct (Dict.get i (HBS.services s)) as [l|] eqn:Hg; simpl.
  - rewrite IH. f_equal. unfold service_at. now rewrite Hg.
  - exact IH.
Qed.

Lemma resolved_empty s (service_ids : list Z) :
  resolved s service_ids = [] <-> known_ids s service_ids = [].
Proof.
  induction service_ids as [|i ids IH]; simpl; [tauto|].
  unfold Dict.contains.
  destruct (Dict.get i (HBS.services s)) as [l|]; simpl; [|exact IH].
  split; discriminate.
Qed.

Lemma resolved_in_store s (service_ids : list Z) :
  services_ok (HBS.objects s) (HBS.services s) ->
  Forall (fun l => (l < List.length (HBS.objects s))%nat) (resolved s service_ids).
Proof.
  intros [_ Hid]. apply Forall_forall. intros l Hin.
  apply resolved_registered in Hin as (k & _ & Hg).
  apply dict_get_in in Hg. now apply Hid in Hg.
Qed.

(** [create_bill] in three cases. *)
Lemma create_bill_unknown_patient pid ids now s :
  Dict.contains pid (HBS.patients s) = false ->
  HBS.create_bill pid ids now s = (PyNone, s).
Proof. intros Hp. unfold HBS.create_bill. now rewrite Hp. Qed.

Lemma create_bill_no_service pid ids now s :
  resolved s ids = [] -> HBS.create_bill pid ids now s = (PyNone, s).
Proof.
  intros Hr. unfold HBS.create_bill.
  rewrite collect_services_resolved, Hr. simpl.
  now destruct (negb (Dict.contains pid (HBS.patients s))).
Qed.

Lemma create_bill_success pid ids now s :
  Dict.contains pid (HBS.patients s) = true -> resolved s ids <> [] ->
  HBS.create_bill pid ids now s =
  let bill := Bill.__init__ (HBS.objects s) (HBS.next_bill_id s) pid
                (resolved s ids) now in
  (PyBill bill,
   HBS.mk (HBS.objects s) (HBS.patients s) (HBS.services s)
          (Dict.set (HBS.next_bill_id s) bill (HBS.bills s))
          (HBS.next_patient_id s) (HBS.next_service_id s)
          (HBS.next_bill_id s + 1)).
Proof.
  intros Hp Hr. unfold HBS.create_bill.
  rewrite Hp, collect_services_resolved. simpl.
  destruct (resolved s ids); [contradiction|reflexivity].
Qed.

(** The three cases are all there is. *)
Lemma create_bill_cases pid ids now s :
  HBS.create_bill pid ids now s = (PyNone, s) \/
  (Dict.contains pid (HBS.patients s) = true /\ resolved s ids <> []).
Proof.
  destruct (Dict.contains pid (HBS.patients s)) eqn:Hp.
  - destruct (resolved s ids) eqn:Hr.
    + left. now apply create_bill_no_service.
    + right. split; [reflexivity|discriminate].
  - left. now apply create_bill_unknown_patient.
Qed.

(** ** Reachable stores satisfy the invariant *)

Lemma invariant_fresh : invariant (@HBS.fresh num).
Proof.
  split; simpl; try (split; [constructor|intros ? ? []]); now left.
Qed.

Lemma load_data_invariant (f : HBS.file num) s s' :
  invariant s -> HBS.load_data f s = Ok s' -> invariant s'.
Proof.
  intros Hinv. destruct f as [| |data]; simpl; [now intros [= <-]|discriminate|].
  destruct (HBS.load_patients _ _) as [ps|e] eqn:Hps; simpl; [|discriminate].
  destruct (HBS.load_services _ _ _) as [[ss h1]|e] eqn:Hss; simpl; [|discriminate].
  destruct (HBS.load_bills _ _ _) as [[bs h2]|e] eqn:Hbs; simpl; [|discriminate].
  rewrite !py_max_with_1. simpl. intros [= <-].
  apply load_patients_ok in Hps; [|split; [constructor|intros ? ? []]].
  apply load_services_ok in Hss as (ext1 & -> & Hss);
    [|split; [constructor|intros ? ? []]].
  apply load_bills_ok in Hbs as (ext2 & -> & Hbs);
    [|split; [constructor|intros ? ? []]].
  split; simpl; try assumption; try (now right).
  now apply services_ok_app.
Qed.

Lemma run_invariant (c : call num) s : invariant s -> invariant (snd (run c s)).
Proof.
  intros [Hp Hs Hb Hnp Hns Hnb]. destruct c as [n c|n p|pid ids now]; simpl.
  - split; simpl; try assumption.
    + now apply patients_ok_set.
    + now apply counter_ok_set.
  - split; simpl; try assumption.
    + apply services_ok_set.
      * now apply services_ok_app.
      * rewrite length_app. simpl. lia.
      * now rewrite deref_new.
    + now apply bills_ok_app.
    + now apply counter_ok_set.
  - destruct (create_bill_cases pid ids now s) as [->|[Hpid Hr]];
      [now split|].
    rewrite create_bill_success by assumption. split; simpl; try assumption.
    + apply bills_ok_set; [exact Hb|]. split; [reflexivity|].
      split; [now apply resolved_in_store|reflexivity].
    + now apply counter_ok_set.
Qed.

Lemma reachable_with_invariant (allowed : HBS.file num -> Prop) s :
  reachable_with allowed s -> invariant s.
Proof.
  induction 1 as [|f s s' _ _ IH Hload|c s _ IH].
  - apply invariant_fresh.
  - now apply (load_data_invariant f s s').
  - now apply run_invariant.
Qed.

Lemma reachable_invariant s : reachable s -> invariant s.
Proof. apply reachable_with_invariant. Qed.

End Billing.

(** * The properties of the specification *)

Section BillCreation.
Context {num : Type} `{Number num}.
Implicit Types (s : HBS.t num).

(** C4: [create_bill] on a patient id that is not in the patient registry
    returns [None] and leaves the whole store as it was: registries,
    counters and objects. *)
Theorem create_bill_unknown_patient_unchanged pid ids now s :
  ~ In pid (Dict.keys (HBS.patients s)) ->
  HBS.create_bill pid ids now s = (PyNone, s).
Proof.
  intros Hn. apply create_bill_unknown_patient.
  destruct (Dict.contains pid (HBS.patients s)) eqn:Hc; [|reflexivity].
  apply dict_contains_in in Hc. contradiction.
Qed.

(** C2, amended: with a known patient and at least one known service id,
    [create_bill] returns a bill under the next bill id whose line items
    are the services of the known ids, in the order given and one per
    occurrence, unknown ids being left out; its total is the sum of their
    prices in that order. The bill is stored and nothing else changes. *)
Theorem create_bill_line_items_total pid ids now s :
  In pid (Dict.keys (HBS.patients s)) ->
  known_ids s ids <> [] ->
  exists b,
    HBS.create_bill pid ids now s =
      (PyBill b,
       HBS.mk (HBS.objects s) (HBS.patients s) (HBS.services s)
              (Dict.set (HBS.next_bill_id s) b (HBS.bills s))
              (HBS.next_patient_id s) (HBS.next_service_id s)
              (HBS.next_bill_id s + 1)) /\
    Bill.bill_id b = HBS.next_bill_id s /\
    Bill.patient_id b = pid /\
    Bill.bill_date b = now /\
    Bill.line_items (HBS.objects s) b = map (service_at s) (known_ids s ids) /\
    List.length (Bill.services_rendered b) = List.length (known_ids s ids) /\
    Bill.total_amount b
    = py_sum (map Service.price (map (service_at s) (known_ids s ids))).
Proof.
  intros Hp Hk.
  assert (Hr : resolved s ids <> []) by (now rewrite resolved_empty).
  apply dict_contains_in in Hp.
  eexists. split; [now apply create_bill_success|]. simpl.
  repeat split.
  - unfold Bill.line_items. simpl. apply resolved_known.
  - rewrite <- (length_map (Heap.deref (HBS.objects s))), resolved_known.
    apply length_map.
  - unfold Bill.calculate_total.
    now rewrite <- resolved_known, map_map.
Qed.

(** C8, amended: [add_patient] never fails and rejects nothing: it files a
    new [Patient] with the counter's value as id, and the given name and
    contact, under that id, adds one to the counter, changes nothing else,
    and returns [None]; [get_patient] on that id then returns the new
    patient. *)
Theorem add_patient_stores_returns_none (name contact : string) s :
  HBS.add_patient name contact s =
    (PyNone,
     HBS.mk (HBS.objects s)
            (Dict.set (HBS.next_patient_id s)
               (Patient.__init__ (HBS.next_patient_id s) name contact)
               (HBS.patients s))
            (HBS.services s) (HBS.bills s)
            (HBS.next_patient_id s + 1) (HBS.next_service_id s)
            (HBS.next_bill_id s)) /\
  HBS.get_patient (HBS.next_patient_id s) (snd (HBS.add_patient name contact s))
  = PyPatient (Patient.__init__ (HBS.next_patient_id s) name contact).
Proof.
  split; [reflexivity|].
  unfold HBS.get_patient. simpl. now rewrite dict_get_set_same.
Qed.

End BillCreation.

(** C4 at the example store: patient 3 is not registered. *)
Lemma create_bill_unknown_patient_unchanged_witness :
  HBS.create_bill 3 [1; 2; 2] "2024-01-01 10:00:00" example_store
  = (PyNone, example_store).
Proof.
  apply create_bill_unknown_patient_unchanged.
  vm_compute. intros [Heq|[]]. discriminate Heq.
Defined.

(** C2 as the spec words its example: the total would be 250.0. The three
    line items are there, and they add up to 200.0. *)
Lemma create_bill_example_total_not_250 :
  exists b,
    fst (HBS.create_bill 1 [1; 2; 2] "2024-01-01 10:00:00" example_store)
    = PyBill b /\
    map Service.price (Bill.line_items (HBS.objects example_store) b)
    = [100%float; 50%float; 50%float] /\
    Bill.total_amount b = 200%float /\
    Bill.total_amount b <> 250%float.
Proof.
  eexists. split; [vm_compute; reflexivity|]. vm_compute.
  repeat split. float_differ 225%float.
Qed.

(** C2, amended, at the spec's example: X-Ray at 100.0, Consult at 50.0,
    ids [1; 2; 2]: three line items, total 200.0. *)
Lemma create_bill_line_items_total_witness :
  exists b,
    fst (HBS.create_bill 1 [1; 2; 2] "2024-01-01 10:00:00" example_store)
    = PyBill b /\
    Bill.line_items (HBS.objects example_store) b
    = [Service.__init__ 1 "X-Ray" 100%float;
       Service.__init__ 2 "Consult" 50%float;
       Service.__init__ 2 "Consult" 50%float] /\
    Bill.total_amount b = 200%float.
Proof.
  destruct (create_bill_line_items_total 1 [1; 2; 2] "2024-01-01 10:00:00"
              example_store) as (b & Hcall & _ & _ & _ & Hitems & _ & Htotal).
  - vm_compute. now left.
  - vm_compute. discriminate.
  - exists b. rewrite Hcall. split; [reflexivity|]. split.
    + rewrite Hitems. vm_compute. reflexivity.
    + rewrite Htotal. vm_compute. reflexivity.
Defined.

(** C8 as stated: [add_patient] would return the new patient. It returns
    [None]. *)
Lemma add_patient_returns_no_patient :
  fst (HBS.add_patient "Ann" "555-0100" (@HBS.fresh float)) = PyNone /\
  fst (HBS.add_patient "Ann" "555-0100" (@HBS.fresh float))
  <> PyPatient (Patient.__init__ 1 "Ann" "555-0100") /\
  forall p : Patient.t,
    fst (HBS.add_patient "Ann" "555-0100" (@HBS.fresh float)) <> PyPatient p.
Proof. split; [reflexivity|]. split; [discriminate|intros p; discriminate]. Qed.

(** ** Loading *)

Lemma load_patients_total (ps : list Patient.dict) (acc : Dict.t Patient.t) :
  Forall patient_complete ps -> exists d, HBS.load_patients ps acc = Ok d.
Proof.
  intros Hall. revert acc. induction Hall as [|p ps Hp _ IH]; intros acc; simpl.
  - now exists acc.
  - destruct p as [[i|] [n|] [c|]]; destruct Hp as (Hi & Hn & Hc);
      try contradiction. simpl. apply IH.
Qed.

Lemma service_complete_inv {num : Type} (ds : list (Service.dict num)) :
  Forall service_complete ds -> exists vs, ds = map Service.to_dict vs.
Proof.
  induction 1 as [|x ds Hx _ [vs ->]].
  - now exists [].
  - destruct x as [[i|] [n|] [p|]]; destruct Hx as (Hi & Hn & Hp);
      try contradiction.
    now exists (Service.__init__ i n p :: vs).
Qed.

Section LoadCounters.
Context {num : Type} `{Number num}.
Implicit Types (s : HBS.t num) (data : HBS.document num).

Lemma load_services_total (ss : list (Service.dict num)) acc (h : Heap.t num) :
  Forall service_complete ss -> exists d h', HBS.load_services ss acc h = Ok (d, h').
Proof.
  intros Hall. revert acc h.
  induction Hall as [|x ss Hx _ IH]; intros acc h; simpl.
  - now exists acc, h.
  - destruct x as [[i|] [n|] [p|]]; destruct Hx as (Hi & Hn & Hp);
      try contradiction. simpl. apply IH.
Qed.

Lemma load_bills_total (bs : list (Bill.dict num)) acc (h : Heap.t num) :
  Forall bill_complete bs -> exists d h', HBS.load_bills bs acc h = Ok (d, h').
Proof.
  intros Hall. revert acc h.
  induction Hall as [|b bs Hb _ IH]; intros acc h; simpl.
  - now exists acc, h.
  - destruct Hb as (Hi & Hp & Hd & ds & Hds & Hcomplete).
    destruct (Bill.key_bill_id b) as [i|] eqn:Ei; [|contradiction].
    destruct (Bill.key_patient_id b) as [p|] eqn:Ep; [|contradiction].
    destruct (Bill.key_bill_date b) as [d|] eqn:Ed; [|contradiction].
    destruct (service_complete_inv ds Hcomplete) as [vs ->]. simpl.
    assert (Hb : Bill.from_dict b h
                 = Ok (Bill.mk i p (seq (List.length h) (List.length vs)) d
                         (py_sum (map Service.price vs)), h ++ vs)).
    { apply bill_from_dict_inv. exists i, p, vs, d. now repeat split. }
    rewrite Hb. simpl. apply IH.
Qed.

(** What [load_data] makes of a document, read off its definition. *)
Lemma load_data_json data s0 s :
  HBS.load_data (HBS.Json data) s0 = Ok s ->
  exists ps ss h1 bs h2,
    HBS.load_patients (get_default (HBS.key_patients data) []) Dict.empty = Ok ps /\
    HBS.load_services (get_default (HBS.key_services data) []) Dict.empty
                      (HBS.objects s0) = Ok (ss, h1) /\
    HBS.load_bills (get_default (HBS.key_bills data) []) Dict.empty h1
    = Ok (bs, h2) /\
    s = HBS.mk h2 ps ss bs (max_or_1 (Dict.keys ps) + 1)
               (max_or_1 (Dict.keys ss) + 1) (max_or_1 (Dict.keys bs) + 1).
Proof.
  simpl.
  destruct (HBS.load_patients _ _) as [ps|e] eqn:Hps; simpl; [|discriminate].
  destruct (HBS.load_services _ _ _) as [[ss h1]|e] eqn:Hss; simpl; [|discriminate].
  destruct (HBS.load_bills _ _ _) as [[bs h2]|e] eqn:Hbs; simpl; [|discriminate].
  rewrite !py_max_with_1. simpl. intros [= <-].
  now exists ps, ss, h1, bs, h2.
Qed.

(** The counters a load sets, in terms of the ids of the file. *)
Lemma load_data_next_ids data s0 s :
  HBS.load_data (HBS.Json data) s0 = Ok s ->
  HBS.next_patient_id s = max_or_1 (patient_ids data) + 1 /\
  HBS.next_service_id s = max_or_1 (service_ids data) + 1 /\
  HBS.next_bill_id s = max_or_1 (bill_ids data) + 1.
Proof.
  intros Hload.
  apply load_data_json in Hload
    as (ps & ss & h1 & bs & h2 & Hps & Hss & Hbs & ->). simpl.
  repeat split; f_equal; apply max_or_1_same_elements; intros x.
  - rewrite (load_patients_keys _ _ _ Hps x). simpl. tauto.
  - rewrite (load_services_keys _ _ _ _ _ Hss x). simpl. tauto.
  - rewrite (load_bills_keys _ _ _ _ _ Hbs x). simpl. tauto.
Qed.

(** C6: a load that returns from a file that exists sets each counter to
    the largest of the ids of its kind in the file and 1, plus 1; it does
    return when no key is missing; with empty or absent arrays the
    counters are 2; without a file [__init__] returns the empty store with
    its counters at 1. *)
Theorem load_data_counters :
  (forall data s0 s,
     HBS.load_data (HBS.Json data) s0 = Ok s ->
     HBS.next_patient_id s = max_or_1 (patient_ids data) + 1 /\
     HBS.next_service_id s = max_or_1 (service_ids data) + 1 /\
     HBS.next_bill_id s = max_or_1 (bill_ids data) + 1) /\
  (forall data s0, complete data ->
     exists s, HBS.load_data (HBS.Json data) s0 = Ok s) /\
  (forall data s0 s,
     HBS.load_data (HBS.Json data) s0 = Ok s ->
     patient_ids data = [] -> service_ids data = [] -> bill_ids data = [] ->
     counters s = (2, 2, 2)) /\
  HBS.__init__ (HBS.Json (HBS.Document (Some []) (Some []) (Some [])))
  = Ok (HBS.mk (num:=num) [] [] [] [] 2 2 2) /\
  HBS.__init__ (HBS.Json (HBS.Document None None None))
  = Ok (HBS.mk (num:=num) [] [] [] [] 2 2 2) /\
  HBS.__init__ HBS.Missing = Ok (HBS.mk (num:=num) [] [] [] [] 1 1 1).
Proof.
  split; [exact load_data_next_ids|]. split; [|split].
  - intros data s0 (Hp & Hs & Hb). simpl.
    destruct (load_patients_total _ Dict.empty Hp) as [ps ->]. simpl.
    destruct (load_services_total _ Dict.empty (HBS.objects s0) Hs)
      as (ss & h1 & ->). simpl.
    destruct (load_bills_total _ Dict.empty h1 Hb) as (bs & h2 & ->). simpl.
    rewrite !py_max_with_1. simpl. eauto.
  - intros data s0 s Hload Ep Es Eb.
    destruct (load_data_next_ids data s0 s Hload) as (Hp & Hs & Hb).
    unfold counters. rewrite Hp, Hs, Hb, Ep, Es, Eb. reflexivity.
  - repeat split.
Qed.

End LoadCounters.

(** C6 on the file of the example: ids 1 | 1, 2 | 1 give counters 2, 3, 2. *)
Lemma load_data_counters_witness :
  exists s,
    HBS.__init__ (HBS.Json tampered_file) = Ok s /\
    counters s = (2, 3, 2).
Proof.
  destruct (proj1 (proj2 load_data_counters) tampered_file HBS.fresh)
    as [s Hs].
  - repeat split; repeat constructor; try discriminate.
    eexists. split; [reflexivity|]. repeat constructor; discriminate.
  - exists s. split; [exact Hs|].
    destruct (proj1 load_data_counters tampered_file HBS.fresh s Hs)
      as (Hp & Hsv & Hb).
    unfold counters. rewrite Hp, Hsv, Hb. reflexivity.
Defined.

(** ** The total of a bill *)

Lemma present_prices {num : Type} (vs : list (Service.t num)) :
  present (map Service.key_price (map Service.to_dict vs))
  = map Service.price vs.
Proof. induction vs as [|v vs IH]; simpl; [reflexivity|now rewrite IH]. Qed.

Section BillTotal.
Context {num : Type} `{Number num}.
Implicit Types (s : HBS.t num) (h : Heap.t num).

Lemma bill_ok_total h k (b : Bill.t num) :
  bill_ok h k b ->
  Bill.total_amount b = py_sum (map Service.price (Bill.line_items h b)).
Proof.
  intros (_ & _ & ->). unfold Bill.calculate_total, Bill.line_items.
  now rewrite map_map.
Qed.

(** C10: in every store a program can hold, whatever files it loaded,
    every bill of the registry has as total the sum of the prices of its
    line items in order; so has the bill [create_bill] returns, and so has
    every bill of a load, whatever total the file stores for it. *)
Theorem bill_total_is_sum_of_line_items s :
  reachable s ->
  (forall k b, In (k, b) (HBS.bills s) ->
     Bill.total_amount b
     = py_sum (map Service.price (Bill.line_items (HBS.objects s) b))) /\
  (forall pid ids now b,
     fst (HBS.create_bill pid ids now s) = PyBill b ->
     Bill.total_amount b
     = py_sum (map Service.price (Bill.line_items (HBS.objects s) b))) /\
  (forall f s' k b,
     HBS.load_data f s = Ok s' -> In (k, b) (HBS.bills s') ->
     Bill.total_amount b
     = py_sum (map Service.price (Bill.line_items (HBS.objects s') b))).
Proof.
  intros Hreach. split; [|split].
  - intros k b Hin. apply reachable_invariant in Hreach.
    destruct Hreach as [_ _ [_ Hb] _ _ _]. now apply (bill_ok_total _ k), Hb.
  - intros pid ids now b Hcall.
    destruct (create_bill_cases pid ids now s) as [Hnone|[Hp Hr]].
    + rewrite Hnone in Hcall. discriminate Hcall.
    + rewrite create_bill_success in Hcall by assumption.
      injection Hcall as <-. unfold Bill.calculate_total, Bill.line_items.
      simpl. now rewrite map_map.
  - intros f s' k b Hload Hin.
    assert (Hinv : invariant s')
      by (apply reachable_invariant; now apply (reach_load _ f s s')).
    destruct Hinv as [_ _ [_ Hb] _ _ _]. now apply (bill_ok_total _ k), Hb.
Qed.

(** C3, amended: [Bill.from_dict] does not read ['total_amount']: the
    total of the bill it returns is the sum of the prices of the line
    items the file lists, and the same bill results whatever total the
    file stores, or none. *)
Theorem bill_from_dict_recomputes_total (data : Bill.dict num) h b h' :
  Bill.from_dict data h = Ok (b, h') ->
  Bill.total_amount b = py_sum (stored_prices data) /\
  forall stored, Bill.from_dict (with_total stored data) h = Ok (b, h').
Proof.
  intros Hb. split.
  - apply bill_from_dict_inv in Hb
      as (i & p & vs & d & _ & _ & Hds & _ & _ & ->).
    unfold stored_prices. rewrite Hds. simpl. now rewrite present_prices.
  - intros stored. exact Hb.
Qed.

End BillTotal.

(** C10 on the file whose bill stores 999.0 for line items of 100.0 and
    50.0: the loaded bill's total is their sum. *)
Lemma bill_total_is_sum_of_line_items_witness :
  exists s b,
    HBS.__init__ (HBS.Json tampered_file) = Ok s /\
    In (1, b) (HBS.bills s) /\
    Bill.key_total_amount tampered_bill = Some 999%float /\
    map Service.price (Bill.line_items (HBS.objects s) b)
    = [100%float; 50%float] /\
    Bill.total_amount b
    = py_sum (map Service.price (Bill.line_items (HBS.objects s) b)).
Proof.
  destruct (HBS.__init__ (HBS.Json tampered_file)) as [s|e] eqn:Hs;
    [|vm_compute in Hs; discriminate Hs].
  assert (Hreach : reachable s)
    by (apply (reach_load _ (HBS.Json tampered_file) HBS.fresh s);
        [exact I|apply reach_fresh|exact Hs]).
  vm_compute in Hs. injection Hs as <-.
  eexists _, _. split; [reflexivity|]. split; [now left|].
  split; [reflexivity|]. split; [reflexivity|].
  apply (proj1 (bill_total_is_sum_of_line_items _ Hreach) 1). now left.
Defined.

(** C3 as stated: a loaded bill's total would be the stored one. On the
    file that stores 999.0 for line items of 100.0 and 50.0 the loaded
    total is 150.0; and no file at all makes a load return a stored total
    that differs from the sum. *)
Lemma bill_from_dict_ignores_stored_total :
  (exists b h,
     Bill.from_dict tampered_bill [] = Ok (b, h) /\
     Bill.key_total_amount tampered_bill = Some 999%float /\
     py_sum (stored_prices tampered_bill) = 150%float /\
     Bill.total_amount b = 150%float /\
     Bill.total_amount b <> 999%float) /\
  ~ (exists (num : Type) (N : Number num) (data : Bill.dict num)
            (h h' : Heap.t num) (b : Bill.t num) (stored : num),
       Bill.from_dict data h = Ok (b, h') /\
       Bill.key_total_amount data = Some stored /\
       stored <> py_sum (stored_prices data) /\
       Bill.total_amount b = stored).
Proof.
  split.
  - eexists _, _. split; [vm_compute; reflexivity|]. vm_compute.
    repeat split. float_differ 500%float.
  - intros (num & N & data & h & h' & b & stored & Hb & _ & Hdiff & Htotal).
    apply bill_from_dict_inv in Hb
      as (i & p & vs & d & _ & _ & Hds & _ & _ & ->).
    apply Hdiff. rewrite <- Htotal. unfold stored_prices. rewrite Hds.
    simpl. now rewrite present_prices.
Qed.

(** C3, amended, on that file: 150.0 whatever is stored. *)
Lemma bill_from_dict_recomputes_total_witness :
  exists b h,
    Bill.from_dict tampered_bill [] = Ok (b, h) /\
    Bill.total_amount b = 150%float /\
    Bill.from_dict (with_total (Some 150%float) tampered_bill) [] = Ok (b, h) /\
    Bill.from_dict (with_total None tampered_bill) [] = Ok (b, h).
Proof.
  destruct (Bill.from_dict tampered_bill []) as [[b h]|e] eqn:Hb;
    [|vm_compute in Hb; discriminate Hb].
  destruct (bill_from_dict_recomputes_total tampered_bill [] b h Hb)
    as [Htotal Hany].
  exists b, h. split; [reflexivity|]. split; [|split].
  - rewrite Htotal. vm_compute. reflexivity.
  - apply Hany.
  - apply Hany.
Defined.

(** ** Bills without line items *)

Section EmptyBills.
Context {num : Type} `{Number num}.
Implicit Types (s : HBS.t num) (h : Heap.t num).

Lemma load_bills_nonempty (bs : list (Bill.dict num)) acc h d h' :
  HBS.load_bills bs acc h = Ok (d, h') ->
  Forall (fun b => Bill.key_services_rendered b <> Some []) bs ->
  (forall k b, In (k, b) acc -> Bill.services_rendered b <> []) ->
  forall k b, In (k, b) d -> Bill.services_rendered b <> [].
Proof.
  revert acc h. induction bs as [|x bs IH]; intros acc h; simpl.
  - intros [= <- <-] _ Hacc. exact Hacc.
  - destruct (Bill.key_bill_id x) as [i|] eqn:Hi; simpl; [|discriminate].
    destruct (Bill.from_dict x h) as [[v h1]|e] eqn:Hv; simpl; [|discriminate].
    intros Hload Hall Hacc. inversion Hall as [|? ? Hx Hrest]; subst.
    apply (IH _ _ Hload Hrest). intros k b Hin.
    apply dict_in_set in Hin as [[_ ->]|Hin]; [|now apply (Hacc k)].
    apply bill_from_dict_inv in Hv
      as (i' & p & vs & dt & _ & _ & Hds & _ & _ & ->). simpl.
    destruct vs as [|v0 vs]; [now rewrite Hds in Hx|discriminate].
Qed.

(** C5, amended: with a known patient and no known service id,
    [create_bill] returns [None] and leaves the store as it was, no bill
    id being used; a bill that [create_bill] returns has a line item; and
    every bill of the registry has one as long as the store was loaded
    only from files whose bills have one. *)
Theorem create_bill_no_known_service_unchanged :
  (forall pid ids now s,
     In pid (Dict.keys (HBS.patients s)) -> known_ids s ids = [] ->
     HBS.create_bill pid ids now s = (PyNone, s)) /\
  (forall pid ids now s b,
     fst (HBS.create_bill pid ids now s) = PyBill b ->
     Bill.services_rendered b <> [] /\ Bill.line_items (HBS.objects s) b <> []) /\
  (forall s, reachable_with billed_file s -> bills_nonempty s).
Proof.
  assert (Hnew : forall pid ids now s b,
     fst (HBS.create_bill pid ids now s) = PyBill b ->
     Bill.services_rendered b <> []).
  { intros pid ids now s b Hcall.
    destruct (create_bill_cases pid ids now s) as [Hnone|[Hp Hr]].
    - rewrite Hnone in Hcall. discriminate Hcall.
    - rewrite create_bill_success in Hcall by assumption.
      injection Hcall as <-. exact Hr. }
  split; [|split].
  - intros pid ids now s _ Hk. apply create_bill_no_service.
    now apply resolved_empty.
  - intros pid ids now s b Hcall. split; [now apply (Hnew pid ids now s)|].
    unfold Bill.line_items. intros Hnil. apply map_eq_nil in Hnil.
    now apply (Hnew pid ids now s b).
  - intros s Hreach.
    induction Hreach as [|f s s' Hf _ IH Hload|c s _ IH].
    + intros k b [].
    + destruct f as [| |data].
      * simpl in Hload. injection Hload as <-. exact IH.
      * discriminate Hload.
      * apply load_data_json in Hload
          as (ps & ss & h1 & bs & h2 & _ & _ & Hbs & ->).
        intros k b Hin. simpl in Hin.
        apply (load_bills_nonempty _ _ _ _ _ Hbs Hf) with (k := k);
          [intros ? ? []|exact Hin].
    + destruct c as [n c|n p|pid ids now]; simpl; try exact IH.
      intros k b Hin.
      destruct (create_bill_cases pid ids now s) as [Hnone|[Hp Hr]].
      * rewrite Hnone in Hin. now apply (IH k).
      * rewrite create_bill_success in Hin by assumption. simpl in Hin.
        apply dict_in_set in Hin as [[_ ->]|Hin]; [exact Hr|now apply (IH k)].
Qed.

End EmptyBills.

(** C5 as stated: every bill of the registry would have a line item. A
    bill of the file with an empty ['services_rendered'] is stored as it
    is. *)
Lemma load_stores_bill_without_line_items :
  exists s b,
    HBS.__init__ (HBS.Json empty_bill_file) = Ok s /\
    HBS.get_bill 1 s = PyBill b /\
    Bill.services_rendered b = [] /\
    Bill.line_items (HBS.objects s) b = [].
Proof. eexists _, _. repeat split. Qed.

(** C5, amended, at the example store: patient 1 is known, services 5 and
    6 are not. *)
Lemma create_bill_no_known_service_unchanged_witness :
  HBS.create_bill 1 [5; 6] "2024-01-01 10:00:00" example_store
  = (PyNone, example_store).
Proof.
  apply (proj1 create_bill_no_known_service_unchanged).
  - vm_compute. now left.
  - vm_compute. reflexivity.
Defined.

(** ** The ids the store assigns *)

Section AssignedIds.
Context {num : Type} `{Number num}.
Implicit Types (s : HBS.t num).

Lemma run_all_cons (c : call num) (cs : list (call num)) s :
  run_all (c :: cs) s
  = (fst (run c s) :: fst (run_all cs (snd (run c s))),
     snd (run_all cs (snd (run c s)))).
Proof.
  simpl. destruct (run c s) as [v s1]. simpl.
  now destruct (run_all cs s1) as [vs s2].
Qed.

Lemma add_patients_ids (people : list (string * string)) s :
  counter_ok (HBS.next_patient_id s) (Dict.keys (HBS.patients s)) ->
  Dict.keys (HBS.patients (snd (run_all (add_patients people) s)))
  = Dict.keys (HBS.patients s)
    ++ consecutive (HBS.next_patient_id s) (List.length people) /\
  HBS.next_patient_id (snd (run_all (add_patients people) s))
  = HBS.next_patient_id s + Z.of_nat (List.length people).
Proof.
  revert s. induction people as [|[n c] people IH]; intros s Hc.
  - simpl. rewrite app_nil_r. split; [reflexivity|lia].
  - unfold add_patients. rewrite map_cons, run_all_cons.
    fold (add_patients (num:=num) people). cbn [fst snd].
    set (s1 := snd (run (AddPatient n c) s)).
    destruct (IH s1) as [Hkeys Hnext].
    + subst s1. simpl. now apply counter_ok_set.
    + rewrite Hkeys, Hnext. subst s1. simpl.
      rewrite dict_set_at_counter by exact Hc.
      unfold Dict.keys. rewrite map_app, <- app_assoc. simpl.
      split; [reflexivity|lia].
Qed.

Lemma add_services_ids (items : list (string * num)) s :
  counter_ok (HBS.next_service_id s) (Dict.keys (HBS.services s)) ->
  Dict.keys (HBS.services (snd (run_all (add_services items) s)))
  = Dict.keys (HBS.services s)
    ++ consecutive (HBS.next_service_id s) (List.length items) /\
  HBS.next_service_id (snd (run_all (add_services items) s))
  = HBS.next_service_id s + Z.of_nat (List.length items).
Proof.
  revert s. induction items as [|[n p] items IH]; intros s Hc.
  - simpl. rewrite app_nil_r. split; [reflexivity|lia].
  - unfold add_services. rewrite map_cons, run_all_cons.
    fold (add_services items). cbn [fst snd].
    set (s1 := snd (run (AddService n p) s)).
    destruct (IH s1) as [Hkeys Hnext].
    + subst s1. simpl. now apply counter_ok_set.
    + rewrite Hkeys, Hnext. subst s1. simpl.
      rewrite dict_set_at_counter by exact Hc.
      unfold Dict.keys. rewrite map_app, <- app_assoc. simpl.
      split; [reflexivity|lia].
Qed.

Lemma create_bills_ids (requests : list (Z * list Z * string)) s :
  counter_ok (HBS.next_bill_id s) (Dict.keys (HBS.bills s)) ->
  Dict.keys (HBS.bills (snd (run_all (create_bills requests) s)))
  = Dict.keys (HBS.bills s)
    ++ consecutive (HBS.next_bill_id s)
         (successes (fst (run_all (create_bills requests) s))) /\
  HBS.next_bill_id (snd (run_all (create_bills requests) s))
  = HBS.next_bill_id s
    + Z.of_nat (successes (fst (run_all (create_bills requests) s))).
Proof.
  revert s. induction requests as [|[[pid ids] now] requests IH]; intros s Hc.
  - simpl. rewrite app_nil_r. split; [reflexivity|unfold successes; simpl; lia].
  - unfold create_bills. rewrite map_cons, run_all_cons.
    fold (create_bills (num:=num) requests). cbn [fst snd].
    change (run (CreateBill pid ids now) s) with (HBS.create_bill pid ids now s).
    unfold successes. cbn [filter].
    destruct (create_bill_cases pid ids now s) as [Hnone|[Hp Hr]].
    + rewrite Hnone. cbn [fst snd truthy]. now apply IH.
    + rewrite create_bill_success by assumption. cbv zeta.
      cbn [fst snd truthy List.length].
      match goal with |- context [run_all _ ?st] => set (s1 := st) end.
      destruct (IH s1) as [Hkeys Hnext].
      * subst s1. simpl. now apply counter_ok_set.
      * rewrite Hkeys, Hnext. unfold successes. subst s1.
        cbn [HBS.bills HBS.next_bill_id].
        rewrite dict_set_at_counter by exact Hc.
        unfold Dict.keys. rewrite map_app, <- app_assoc. cbn [map fst app].
        split; [reflexivity|lia].
Qed.

(** C7: on a store a program can hold, [n] calls of [add_patient] file
    their patients under the counter's value and the [n - 1] integers
    after it, in that order, and leave the counter [n] higher; so do
    [add_service] with services and the calls of [create_bill] that return
    a bill. The counters are 1 on a store started without a file and, after
    a load, one more than the largest of the ids of the file and 1, which
    is the largest id when the file has a positive one. *)
Theorem ids_assigned_consecutive :
  (forall s, reachable s ->
     (forall people,
        Dict.keys (HBS.patients (snd (run_all (add_patients people) s)))
        = Dict.keys (HBS.patients s)
          ++ consecutive (HBS.next_patient_id s) (List.length people) /\
        HBS.next_patient_id (snd (run_all (add_patients people) s))
        = HBS.next_patient_id s + Z.of_nat (List.length people)) /\
     (forall items,
        Dict.keys (HBS.services (snd (run_all (add_services items) s)))
        = Dict.keys (HBS.services s)
          ++ consecutive (HBS.next_service_id s) (List.length items) /\
        HBS.next_service_id (snd (run_all (add_services items) s))
        = HBS.next_service_id s + Z.of_nat (List.length items)) /\
     (forall requests,
        Dict.keys (HBS.bills (snd (run_all (create_bills requests) s)))
        = Dict.keys (HBS.bills s)
          ++ consecutive (HBS.next_bill_id s)
               (successes (fst (run_all (create_bills requests) s))) /\
        HBS.next_bill_id (snd (run_all (create_bills requests) s))
        = HBS.next_bill_id s
          + Z.of_nat (successes (fst (run_all (create_bills requests) s))))) /\
  (exists s0, HBS.__init__ (num:=num) HBS.Missing = Ok s0 /\ counters s0 = (1, 1, 1)) /\
  (forall data s,
     HBS.__init__ (HBS.Json data) = Ok s ->
     counters s = (max_or_1 (patient_ids data) + 1,
                   max_or_1 (service_ids data) + 1,
                   max_or_1 (bill_ids data) + 1)) /\
  (forall ids x, In x ids -> 1 <= x ->
     In (max_or_1 ids) ids /\ forall y, In y ids -> y <= max_or_1 ids).
Proof.
  split; [|split; [|split]].
  - intros s Hreach. apply reachable_invariant in Hreach.
    destruct Hreach as [_ _ _ Hp Hs Hb]. split; [|split].
    + intros people. now apply add_patients_ids.
    + intros items. now apply add_services_ids.
    + intros requests. now apply create_bills_ids.
  - now exists HBS.fresh.
  - intros data s Hload. unfold counters.
    destruct (load_data_next_ids data HBS.fresh s Hload) as (-> & -> & ->).
    reflexivity.
  - intros ids x Hin Hpos. split; [|apply max_or_1_ge].
    destruct (max_or_1_in ids) as [Hone|Hmax]; [|exact Hmax].
    pose proof (max_or_1_ge ids x Hin) as Hx.
    assert (x = 1) by lia. subst x. now rewrite Hone.
Qed.

End AssignedIds.

(** C7 on a store started without a file: three patients get 1, 2, 3. *)
Lemma ids_assigned_consecutive_witness :
  Dict.keys (HBS.patients (snd (run_all
    (add_patients (num:=float)
       [("Ann", "555-0100"); ("Bob", "555-0101"); ("Cy", "555-0102")]%string)
    HBS.fresh)))
  = [1; 2; 3] /\
  HBS.next_patient_id (snd (run_all
    (add_patients (num:=float)
       [("Ann", "555-0100"); ("Bob", "555-0101"); ("Cy", "555-0102")]%string)
    HBS.fresh))
  = 4.
Proof.
  exact (proj1 (proj1 ids_assigned_consecutive HBS.fresh (reach_fresh _))
           [("Ann", "555-0100"); ("Bob", "555-0101"); ("Cy", "555-0102")]%string).
Defined.

(** ** A bill and the objects of the registry *)

Section SharedServices.
Context {num : Type} `{Number num}.
Implicit Types (s : HBS.t num) (h : Heap.t num).

Lemma line_items_update h l f (b : Bill.t num) :
  Forall (fun l' => (l' < List.length h)%nat) (Bill.services_rendered b) ->
  Bill.line_items (Heap.update l f h) b
  = map (changed_item h l f) (Bill.services_rendered b).
Proof.
  intros Hall. unfold Bill.line_items. apply map_ext_in. intros l' Hin.
  rewrite Forall_forall in Hall. unfold changed_item.
  destruct (Nat.eqb_spec l' l) as [->|Hne].
  - apply deref_update_same. now apply Hall.
  - now apply deref_update_other.
Qed.

(** C9, amended: the bill [create_bill] returns holds the objects of the
    service registry themselves, not copies. Its total is a field of its
    own, set once: assigning to an attribute of a billed service leaves the
    stored bill and its total as they were and shows in its line items;
    filing a new object under a service id, and every call of the store,
    leave the bill, its total and its line items as they were. *)
Theorem bill_holds_registry_objects pid ids now s b :
  reachable s ->
  fst (HBS.create_bill pid ids now s) = PyBill b ->
  let s' := snd (HBS.create_bill pid ids now s) in
  (forall l, In l (Bill.services_rendered b) ->
     exists k, In k ids /\ HBS.get_service k s' = PyService l) /\
  (forall l f,
     HBS.get_bill (Bill.bill_id b) (assign l f s') = PyBill b /\
     Bill.line_items (HBS.objects (assign l f s')) b
     = map (changed_item (HBS.objects s') l f) (Bill.services_rendered b)) /\
  (forall k v,
     HBS.get_bill (Bill.bill_id b) (replace_service k v s') = PyBill b /\
     Bill.line_items (HBS.objects (replace_service k v s')) b
     = Bill.line_items (HBS.objects s') b) /\
  (forall c,
     HBS.get_bill (Bill.bill_id b) (snd (run c s')) = PyBill b /\
     Bill.line_items (HBS.objects (snd (run c s'))) b
     = Bill.line_items (HBS.objects s') b).
Proof.
  intros Hreach Hcall s'. subst s'.
  apply reachable_invariant in Hreach. destruct Hreach as [_ Hs _ _ _ Hnb].
  destruct (create_bill_cases pid ids now s) as [Hnone|[Hp Hr]];
    [rewrite Hnone in Hcall; discriminate Hcall|].
  rewrite create_bill_success in Hcall |- * by assumption.
  cbv zeta in Hcall |- *. injection Hcall as <-. cbn [snd].
  set (b := Bill.__init__ (HBS.objects s) (HBS.next_bill_id s) pid
              (resolved s ids) now).
  pose proof (resolved_in_store s ids Hs) as Hlocs.
  assert (Hstored : forall d, Dict.get (Bill.bill_id b)
            (Dict.set (HBS.next_bill_id s) b d) = Some b)
    by (intros d; apply dict_get_set_same).
  split; [|split; [|split]].
  - intros l Hin. apply resolved_registered in Hin as (k & Hk & Hg).
    exists k. split; [exact Hk|]. unfold HBS.get_service. simpl. now rewrite Hg.
  - intros l f. split.
    + unfold HBS.get_bill. simpl HBS.bills. now rewrite Hstored.
    + simpl HBS.objects. now apply line_items_update.
  - intros k v. split.
    + unfold HBS.get_bill. simpl HBS.bills. now rewrite Hstored.
    + simpl HBS.objects. unfold Bill.line_items. now apply map_deref_app.
  - intros [n c|n p|pid' ids' now']; cbn [run].
    + split; [|reflexivity]. unfold HBS.get_bill. simpl HBS.bills.
      now rewrite Hstored.
    + split.
      * unfold HBS.get_bill. simpl HBS.bills. now rewrite Hstored.
      * simpl HBS.objects. unfold Bill.line_items. now apply map_deref_app.
    + match goal with |- context [HBS.create_bill _ _ _ ?st] => set (s1 := st) end.
      destruct (create_bill_cases pid' ids' now' s1) as [Hnone|[Hp' Hr']].
      * rewrite Hnone. split; [|reflexivity]. unfold HBS.get_bill, s1.
        simpl HBS.bills. now rewrite Hstored.
      * rewrite create_bill_success by assumption. cbv zeta. cbn [snd].
        split; [|reflexivity]. unfold HBS.get_bill. cbn [HBS.bills].
        rewrite dict_get_set_other; [unfold s1; simpl HBS.bills; now rewrite Hstored|].
        unfold s1. simpl. lia.
Qed.

End SharedServices.

(** C9 as stated: a later change of a service's price or name would leave
    the line items of a bill as they were. The bill of X-Ray at 100.0
    holds the object the registry has under id 1; once its price is 999.0
    the bill's line item reads 999.0, and the bill's total is still 100.0;
    once its name is MRI the bill's line item reads MRI. *)
Lemma price_change_shows_in_line_items :
  exists b l,
    fst (HBS.create_bill 1 [1] "2024-01-01 10:00:00" example_store) = PyBill b /\
    HBS.get_service 1 example_store = PyService l /\
    Bill.services_rendered b = [l] /\
    map Service.price (Bill.line_items (HBS.objects example_store) b)
    = [100%float] /\
    map Service.price
        (Bill.line_items (Heap.set_price l 999%float (HBS.objects example_store)) b)
    = [999%float] /\
    Bill.total_amount b = 100%float /\
    Bill.line_items (Heap.set_price l 999%float (HBS.objects example_store)) b
    <> Bill.line_items (HBS.objects example_store) b /\
    map Service.name
        (Bill.line_items (Heap.set_name l "MRI" (HBS.objects example_store)) b)
    = ["MRI"%string] /\
    Bill.line_items (Heap.set_name l "MRI" (HBS.objects example_store)) b
    <> Bill.line_items (HBS.objects example_store) b.
Proof.
  eexists _, _. split; [vm_compute; reflexivity|].
  split; [vm_compute; reflexivity|]. vm_compute. repeat split.
  - intros Heq.
    apply (f_equal (fun items =>
             map (fun v => PrimFloat.ltb (Service.price v) 500) items)) in Heq.
    vm_compute in Heq. discriminate Heq.
  - intros Heq. apply (f_equal (map Service.name)) in Heq. discriminate Heq.
Qed.

(** C9, amended, on that bill: assigning 999.0 to the price shows in the
    line item; the stored bill and its total stay. *)
Lemma bill_holds_registry_objects_witness :
  exists b s',
    HBS.create_bill 1 [1] "2024-01-01 10:00:00" example_store = (PyBill b, s') /\
    HBS.get_bill (Bill.bill_id b)
      (assign 0%nat (fun v => Service.__init__ (Service.service_id v)
                                (Service.name v) 999%float) s')
    = PyBill b /\
    Bill.line_items
      (HBS.objects
         (assign 0%nat (fun v => Service.__init__ (Service.service_id v)
                                   (Service.name v) 999%float) s')) b
    = [Service.__init__ 1 "X-Ray" 999%float].
Proof.
  destruct (HBS.create_bill 1 [1] "2024-01-01 10:00:00" example_store)
    as [v s'] eqn:Hcall.
  vm_compute in Hcall. injection Hcall as <- <-.
  eexists _, _. split; [reflexivity|].
  destruct (bill_holds_registry_objects 1 [1] "2024-01-01 10:00:00"
              example_store _
              (reach_call _ (AddService "Consult" 50%float) _
                 (reach_call _ (AddService "X-Ray" 100%float) _
                    (reach_call _ (AddPatient "Ann" "555-0100") _
                       (reach_fresh _))))
              eq_refl)
    as (_ & Hassign & _).
  destruct (Hassign 0%nat (fun v => Service.__init__ (Service.service_id v)
                                      (Service.name v) 999%float))
    as [Hbill Hitems].
  split; [exact Hbill|]. exact Hitems.
Defined.

(** ** Saving, then loading *)

(** One step of each comprehension on what [to_dict] wrote. *)
Lemma load_patients_cons (p : Patient.t) rest acc :
  HBS.load_patients (Patient.to_dict p :: rest) acc
  = HBS.load_patients rest (Dict.set (Patient.patient_id p) p acc).
Proof. now destruct p. Qed.

Lemma load_services_cons {num : Type} (v : Service.t num) rest acc h :
  HBS.load_services (Service.to_dict v :: rest) acc h
  = HBS.load_services rest (Dict.set (Service.service_id v) (List.length h) acc)
                      (h ++ [v]).
Proof. now destruct v. Qed.

Lemma load_bills_cons {num : Type} `{Number num} (x : Bill.dict num) rest acc
  h k v h1 :
  Bill.key_bill_id x = Some k -> Bill.from_dict x h = Ok (v, h1) ->
  HBS.load_bills (x :: rest) acc h = HBS.load_bills rest (Dict.set k v acc) h1.
Proof.
  intros Hk Hv. cbn [HBS.load_bills]. rewrite Hk. cbn [subscript bind].
  now rewrite Hv.
Qed.

(** The patients of a registry, saved and loaded, come back under the same
    ids and in the same order. *)
Lemma load_patients_saved (d acc : Dict.t Patient.t) :
  (forall k p, In (k, p) d -> Patient.patient_id p = k) ->
  NoDup (Dict.keys acc ++ Dict.keys d) ->
  HBS.load_patients (map Patient.to_dict (Dict.values d)) acc = Ok (acc ++ d).
Proof.
  revert acc. induction d as [|[k p] d IH]; intros acc Hid Hnd.
  - simpl. now rewrite app_nil_r.
  - unfold Dict.values. cbn [map snd]. fold (Dict.values d).
    rewrite load_patients_cons.
    assert (Hk : Patient.patient_id p = k) by (apply Hid; now left).
    rewrite Hk. simpl in Hnd.
    rewrite dict_set_absent
      by (apply NoDup_remove_2 in Hnd; rewrite in_app_iff in Hnd; tauto).
    rewrite IH.
    + now rewrite <- app_assoc.
    + intros k' p' Hin. apply Hid. now right.
    + unfold Dict.keys. rewrite map_app, <- app_assoc. exact Hnd.
Qed.

Section RoundTrip.
Context {num : Type} `{Number num}.
Implicit Types (s : HBS.t num) (h hs : Heap.t num).

Lemma services_in_app h ext (d : Dict.t Heap.loc) :
  (forall k l, In (k, l) d -> (l < List.length h)%nat) ->
  services_in (h ++ ext) d = services_in h d.
Proof.
  intros Hlocs. apply map_ext_in. intros [k l] Hin. simpl.
  now rewrite deref_app_l by now apply (Hlocs k).
Qed.

Lemma bills_in_app h ext (d : Dict.t (Bill.t num)) :
  (forall k b, In (k, b) d ->
     Forall (fun l => (l < List.length h)%nat) (Bill.services_rendered b)) ->
  bills_in (h ++ ext) d = bills_in h d.
Proof.
  intros Hlocs. apply map_ext_in. intros [k b] Hin. simpl.
  unfold read_bill, Bill.line_items.
  now rewrite map_deref_app by now apply (Hlocs k).
Qed.

Lemma load_services_saved hs (d : Dict.t Heap.loc) acc h :
  (forall k l, In (k, l) d -> Service.service_id (Heap.deref hs l) = k) ->
  NoDup (Dict.keys acc ++ Dict.keys d) ->
  (forall k l, In (k, l) acc -> (l < List.length h)%nat) ->
  exists d' h',
    HBS.load_services
      (map (fun l => Service.to_dict (Heap.deref hs l)) (Dict.values d)) acc h
    = Ok (d', h') /\
    services_in h' d' = services_in h acc ++ services_in hs d /\
    (forall k l, In (k, l) d' -> (l < List.length h')%nat).
Proof.
  revert acc h. induction d as [|[k l] d IH]; intros acc h Hid Hnd Hacc.
  - simpl. exists acc, h. now rewrite app_nil_r.
  - unfold Dict.values. cbn [map snd]. fold (Dict.values d).
    rewrite load_services_cons.
    assert (Hk : Service.service_id (Heap.deref hs l) = k) by (apply Hid; now left).
    rewrite Hk. simpl in Hnd.
    rewrite dict_set_absent
      by (apply NoDup_remove_2 in Hnd; rewrite in_app_iff in Hnd; tauto).
    destruct (IH (acc ++ [(k, List.length h)]) (h ++ [Heap.deref hs l]))
      as (d' & h' & Hload & Hread & Hlocs).
    + intros k' l' Hin. apply Hid. now right.
    + unfold Dict.keys. rewrite map_app, <- app_assoc. exact Hnd.
    + intros k' l' Hin. rewrite length_app. simpl.
      apply in_app_iff in Hin as [Hin|[[= <- <-]|[]]]; [|lia].
      specialize (Hacc _ _ Hin). lia.
    + exists d', h'. split; [exact Hload|]. split; [|exact Hlocs].
      rewrite Hread. unfold services_in at 1. rewrite map_app. simpl.
      rewrite deref_new, <- app_assoc. simpl. f_equal.
      now apply services_in_app.
Qed.

Lemma bill_to_dict_from_dict hs (b : Bill.t num) h :
  Bill.total_amount b = Bill.calculate_total hs (Bill.services_rendered b) ->
  exists b',
    Bill.from_dict (Bill.to_dict hs b) h = Ok (b', h ++ Bill.line_items hs b) /\
    read_bill (h ++ Bill.line_items hs b) b' = read_bill hs b /\
    Forall (fun l => (l < List.length (h ++ Bill.line_items hs b))%nat)
           (Bill.services_rendered b').
Proof.
  intros Htotal. eexists. split; [|split].
  - apply bill_from_dict_inv.
    exists (Bill.bill_id b), (Bill.patient_id b), (Bill.line_items hs b),
           (Bill.bill_date b).
    repeat split. simpl. unfold Bill.line_items. now rewrite map_map.
  - unfold read_bill. simpl. unfold Bill.line_items at 1. simpl.
    rewrite map_deref_seq, Htotal. unfold Bill.calculate_total, Bill.line_items.
    now rewrite map_map.
  - simpl. pose proof (seq_in_store h (Bill.line_items hs b) []) as Hseq.
    now rewrite app_nil_r in Hseq.
Qed.

Lemma load_bills_saved hs (d : Dict.t (Bill.t num)) acc h :
  (forall k b, In (k, b) d ->
     Bill.bill_id b = k /\
     Bill.total_amount b = Bill.calculate_total hs (Bill.services_rendered b)) ->
  NoDup (Dict.keys acc ++ Dict.keys d) ->
  (forall k b, In (k, b) acc ->
     Forall (fun l => (l < List.length h)%nat) (Bill.services_rendered b)) ->
  exists d' h',
    HBS.load_bills (map (Bill.to_dict hs) (Dict.values d)) acc h = Ok (d', h') /\
    bills_in h' d' = bills_in h acc ++ bills_in hs d /\
    (forall k b, In (k, b) d' ->
       Forall (fun l => (l < List.length h')%nat) (Bill.services_rendered b)).
Proof.
  revert acc h. induction d as [|[k b] d IH]; intros acc h Hid Hnd Hacc.
  - simpl. exists acc, h. now rewrite app_nil_r.
  - destruct (Hid k b (or_introl eq_refl)) as [Hk Htotal].
    destruct (bill_to_dict_from_dict hs b h Htotal) as (b' & Hb' & Hread' & Hlocs').
    unfold Dict.values. cbn [map snd]. fold (Dict.values d).
    rewrite (load_bills_cons (Bill.to_dict hs b) _ _ _ k b' _
               (f_equal Some Hk) Hb').
    simpl in Hnd.
    rewrite dict_set_absent
      by (apply NoDup_remove_2 in Hnd; rewrite in_app_iff in Hnd; tauto).
    destruct (IH (acc ++ [(k, b')]) (h ++ Bill.line_items hs b))
      as (d' & h' & Hload & Hread & Hlocs).
    + intros k0 b0 Hin. apply Hid. now right.
    + unfold Dict.keys. rewrite map_app, <- app_assoc. exact Hnd.
    + intros k0 b0 Hin.
      apply in_app_iff in Hin as [Hin|[[= <- <-]|[]]]; [|exact Hlocs'].
      eapply Forall_impl; [|exact (Hacc _ _ Hin)]. simpl. intros l Hl.
      rewrite length_app. lia.
    + exists d', h'. split; [exact Hload|]. split; [|exact Hlocs].
      rewrite Hread. unfold bills_in at 1. rewrite map_app. simpl.
      rewrite Hread', <- app_assoc. simpl. f_equal.
      now apply bills_in_app.
Qed.

End RoundTrip.

Lemma keys_of_services_in {num : Type} `{Number num} (h : Heap.t num)
  (d : Dict.t Heap.loc) : map fst (services_in h d) = Dict.keys d.
Proof. unfold services_in, Dict.keys. rewrite map_map. now apply map_ext. Qed.

Lemma keys_of_bills_in {num : Type} `{Number num} (h : Heap.t num)
  (d : Dict.t (Bill.t num)) : map fst (bills_in h d) = Dict.keys d.
Proof. unfold bills_in, Dict.keys. rewrite map_map. now apply map_ext. Qed.

Lemma reloaded_counter_ok {V : Type} (d : Dict.t V) (n : Z) :
  counter_ok n (Dict.keys d) -> max_or_1 (Dict.keys d) + 1 = reloaded_counter d n.
Proof.
  intros [[Hnil ->]| ->].
  - destruct d; [reflexivity|discriminate Hnil].
  - now destruct d.
Qed.

Section SaveLoad.
Context {num : Type} `{Number num}.
Implicit Types (s : HBS.t num).

(** C1, amended: a store a program can hold, saved and loaded by a new
    store: the load returns; patients, services and bills come back field
    for field, under the same ids and in the same order, every bill with
    its line items, date and total. The counters are not in the file: the
    load sets them anew, so a counter comes back as it was when its
    registry is not empty, and as 2 when its registry is empty. *)
Theorem save_load_registries s :
  reachable s ->
  exists s',
    HBS.__init__ (HBS.Json (HBS.save_data s)) = Ok s' /\
    read_patients s' = read_patients s /\
    read_services s' = read_services s /\
    read_bills s' = read_bills s /\
    HBS.next_patient_id s' = reloaded_counter (HBS.patients s) (HBS.next_patient_id s) /\
    HBS.next_service_id s' = reloaded_counter (HBS.services s) (HBS.next_service_id s) /\
    HBS.next_bill_id s' = reloaded_counter (HBS.bills s) (HBS.next_bill_id s).
Proof.
  intros Hreach. apply reachable_invariant in Hreach.
  destruct Hreach as [[Hpn Hpid] [Hsn Hsid] [Hbn Hbid] Hcp Hcs Hcb].
  pose proof (load_patients_saved (HBS.patients s) Dict.empty Hpid Hpn) as Hps.
  destruct (load_services_saved (HBS.objects s) (HBS.services s)
              (@Dict.empty Heap.loc) [])
    as (ss & h1 & Hss & Hsread & Hslocs);
    [intros k l Hin; now apply Hsid|exact Hsn|intros ? ? []|].
  destruct (load_bills_saved (HBS.objects s) (HBS.bills s) Dict.empty h1)
    as (bs & h2 & Hbs & Hbread & Hblocs);
    [intros k b Hin; destruct (Hbid k b Hin) as (? & _ & ?); now split
    |exact Hbn|intros ? ? []|].
  destruct (load_bills_ok _ _ _ _ _ Hbs) as (ext & -> & _);
    [split; [constructor|intros ? ? []]|].
  simpl in Hps, Hsread, Hbread.
  eexists. split.
  - unfold HBS.__init__, HBS.load_data, HBS.save_data.
    cbn [HBS.key_patients HBS.key_services HBS.key_bills get_default HBS.objects
         HBS.fresh].
    rewrite Hps. cbn [bind]. rewrite Hss. cbn [bind]. rewrite Hbs. cbn [bind].
    rewrite !py_max_with_1. cbn [bind]. reflexivity.
  - cbn [HBS.next_patient_id HBS.next_service_id HBS.next_bill_id].
    unfold read_patients, read_services, read_bills.
    cbn [HBS.patients HBS.services HBS.bills HBS.objects].
    rewrite (services_in_app h1 ext ss Hslocs), Hsread, Hbread.
    repeat split.
    + now apply reloaded_counter_ok.
    + rewrite <- (keys_of_services_in h1 ss), Hsread, keys_of_services_in.
      now apply reloaded_counter_ok.
    + rewrite <- (keys_of_bills_in (h1 ++ ext) bs), Hbread, keys_of_bills_in.
      now apply reloaded_counter_ok.
Qed.

(** For any numbers: a store started without a file, saved and loaded,
    has its three registries come back empty and its three counters come
    back as 2, not as the 1 they were. With one patient added before the
    save, the counters 2, 1, 1 come back as 2, 2, 2. *)
Theorem save_load_fresh_counters :
  HBS.__init__ (num:=num) HBS.Missing = Ok HBS.fresh /\
  counters (num:=num) HBS.fresh = (1, 1, 1) /\
  (exists s',
     HBS.__init__ (HBS.Json (HBS.save_data (num:=num) HBS.fresh)) = Ok s' /\
     read_patients s' = read_patients (num:=num) HBS.fresh /\
     read_services s' = read_services HBS.fresh /\
     read_bills s' = read_bills HBS.fresh /\
     counters s' = (2, 2, 2)) /\
  (forall name contact,
     counters (snd (HBS.add_patient (num:=num) name contact HBS.fresh))
     = (2, 1, 1) /\
     exists s',
       HBS.__init__ (HBS.Json (HBS.save_data
         (snd (HBS.add_patient (num:=num) name contact HBS.fresh)))) = Ok s' /\
       read_patients s'
       = read_patients (snd (HBS.add_patient (num:=num) name contact HBS.fresh)) /\
       counters s' = (2, 2, 2)).
Proof.
  split; [reflexivity|]. split; [reflexivity|]. split.
  - eexists. repeat split.
  - intros name contact. split; [reflexivity|]. eexists. repeat split.
Qed.

End SaveLoad.

(** C1 as stated: the three counters would be preserved. The store
    started without a file is one a program can hold; its counters are 1,
    1, 1, and saved and loaded they are 2, 2, 2. *)
Lemma save_load_moves_counters_of_empty_store :
  reachable (@HBS.fresh float) /\
  counters (@HBS.fresh float) = (1, 1, 1) /\
  exists s',
    HBS.__init__ (HBS.Json (HBS.save_data (@HBS.fresh float))) = Ok s' /\
    read_patients s' = read_patients (@HBS.fresh float) /\
    read_services s' = read_services (@HBS.fresh float) /\
    read_bills s' = read_bills (@HBS.fresh float) /\
    counters s' = (2, 2, 2) /\
    counters s' <> counters (@HBS.fresh float).
Proof.
  split; [apply reach_fresh|]. split; [reflexivity|].
  destruct (save_load_fresh_counters (num:=float))
    as (_ & _ & (s' & Hload & Hp & Hs & Hb & Hc) & _).
  exists s'. repeat split; try assumption.
  rewrite Hc. discriminate.
Qed.

(** C1, amended, on the example store after one bill: no registry is
    empty, so the counters come back as they were, 2, 3 and 2. *)
Lemma save_load_registries_witness :
  exists s',
    HBS.__init__ (HBS.Json (HBS.save_data
      (snd (HBS.create_bill 1 [1; 2; 2] "2024-01-01 10:00:00" example_store))))
    = Ok s' /\
    read_bills s'
    = read_bills
        (snd (HBS.create_bill 1 [1; 2; 2] "2024-01-01 10:00:00" example_store)) /\
    counters s' = (2, 3, 2).
Proof.
  destruct (save_load_registries
              (snd (run (CreateBill 1 [1; 2; 2] "2024-01-01 10:00:00")
                        example_store)))
    as (s' & Hload & _ & _ & Hbills & Hp & Hs & Hb).
  - apply reach_call.
    apply (reach_call _ (AddService "Consult" 50%float)).
    apply (reach_call _ (AddService "X-Ray" 100%float)).
    apply (reach_call _ (AddPatient "Ann" "555-0100")).
    apply reach_fresh.
  - exists s'. split; [exact Hload|]. split; [exact Hbills|].
    unfold counters. rewrite Hp, Hs, Hb. reflexivity.
Defined.

(** * Further properties of the code *)

(** ** Which key a load fails on *)

Lemma load_patients_missing (ps : list Patient.dict) (acc : Dict.t Patient.t) :
  match flat_map patient_missing ps with
  | [] => exists d, HBS.load_patients ps acc = Ok d
  | key :: _ => HBS.load_patients ps acc = Raise (KeyError key)
  end.
Proof.
  revert acc. induction ps as [|p ps IH]; intros acc.
  - simpl. now exists acc.
  - destruct p as [[i|] [n|] [c|]]; try reflexivity.
    simpl. apply IH.
Qed.

Section MissingKeys.
Context {num : Type} `{Number num}.
Implicit Types (s : HBS.t num) (h : Heap.t num).

Lemma load_services_missing (ss : list (Service.dict num)) acc h :
  match flat_map service_missing ss with
  | [] => exists d h', HBS.load_services ss acc h = Ok (d, h')
  | key :: _ => HBS.load_services ss acc h = Raise (KeyError key)
  end.
Proof.
  revert acc h. induction ss as [|x ss IH]; intros acc h.
  - simpl. now exists acc, h.
  - destruct x as [[i|] [n|] [p|]]; try reflexivity.
    simpl. apply IH.
Qed.

Lemma new_services_missing (ds : list (Service.dict num)) h :
  match flat_map service_missing ds with
  | [] => exists ls h', Bill.new_services ds h = Ok (ls, h')
  | key :: _ => Bill.new_services ds h = Raise (KeyError key)
  end.
Proof.
  revert h. induction ds as [|x ds IH]; intros h.
  - simpl. now exists [], h.
  - destruct x as [[i|] [n|] [p|]]; try reflexivity.
    simpl. specialize (IH (h ++ [Service.__init__ i n p])).
    destruct (flat_map service_missing ds) as [|key rest].
    + destruct IH as (ls & h' & ->). simpl. eauto.
    + now rewrite IH.
Qed.

Lemma load_bills_missing (bs : list (Bill.dict num)) acc h :
  match flat_map bill_missing bs with
  | [] => exists d h', HBS.load_bills bs acc h = Ok (d, h')
  | key :: _ => HBS.load_bills bs acc h = Raise (KeyError key)
  end.
Proof.
  revert acc h. induction bs as [|b bs IH]; intros acc h.
  - simpl. now exists acc, h.
  - destruct b as [[i|] p [ds|] d t]; try reflexivity.
    cbn [flat_map bill_missing missing Bill.key_bill_id
         Bill.key_services_rendered Bill.key_patient_id Bill.key_bill_date app].
    cbn [HBS.load_bills Bill.key_bill_id subscript bind].
    unfold Bill.from_dict.
    cbn [Bill.key_bill_id Bill.key_services_rendered Bill.key_patient_id
         Bill.key_bill_date subscript bind].
    pose proof (new_services_missing ds h) as Hds.
    destruct (flat_map service_missing ds) as [|key rest].
    + destruct Hds as (ls & h' & ->). cbn [bind app].
      destruct p as [p|]; [|reflexivity].
      destruct d as [d|]; [|reflexivity].
      cbn [missing app subscript bind]. apply IH.
    + now rewrite Hds.
Qed.

(** X2: a load of a parsed document returns exactly when no record lacks a
    key it subscripts, and otherwise raises [KeyError] for the first key
    that is missing in reading order: patients, then services, then bills,
    each record key by key. ['total_amount'] is not among them. *)
Theorem load_data_first_missing_key (data : HBS.document num) s0 :
  match document_missing data with
  | [] => exists s, HBS.load_data (HBS.Json data) s0 = Ok s
  | key :: _ => HBS.load_data (HBS.Json data) s0 = Raise (KeyError key)
  end.
Proof.
  unfold document_missing, HBS.load_data.
  pose proof (load_patients_missing (get_default (HBS.key_patients data) [])
                Dict.empty) as Hps.
  destruct (flat_map patient_missing _) as [|key rest]; [|now rewrite Hps].
  destruct Hps as [ps ->]. cbn [bind app].
  pose proof (load_services_missing (get_default (HBS.key_services data) [])
                (@Dict.empty Heap.loc) (HBS.objects s0)) as Hss.
  destruct (flat_map service_missing _) as [|key rest]; [|now rewrite Hss].
  destruct Hss as (ss & h1 & ->). cbn [bind app].
  pose proof (load_bills_missing (get_default (HBS.key_bills data) [])
                Dict.empty h1) as Hbs.
  destruct (flat_map bill_missing _) as [|key rest]; [|now rewrite Hbs].
  destruct Hbs as (bs & h2 & ->). cbn [bind].
  rewrite !py_max_with_1. cbn [bind]. eauto.
Qed.

End MissingKeys.

(** ** Looking up what a load stored *)

Lemma load_patients_get (ps : list Patient.dict) (acc d : Dict.t Patient.t) k :
  HBS.load_patients ps acc = Ok d ->
  match last_with (fun p => has_id k (Patient.key_patient_id p)) ps with
  | Some x => exists p, Dict.get k d = Some p /\ Patient.to_dict p = x
  | None => Dict.get k d = Dict.get k acc
  end.
Proof.
  revert acc. induction ps as [|x ps IH]; intros acc.
  - simpl. now intros [= <-].
  - cbn [HBS.load_patients last_with].
    destruct (Patient.key_patient_id x) as [i|] eqn:Hi; [|discriminate].
    cbn [subscript bind].
    destruct (Patient.from_dict x) as [v|e] eqn:Hv; [|discriminate].
    cbn [bind]. intros Hload. specialize (IH _ Hload).
    destruct (last_with _ ps) as [y|]; [exact IH|].
    rewrite IH. cbn [has_id]. destruct (Z.eqb_spec i k) as [->|Hne].
    + exists v. split; [apply dict_get_set_same|].
      symmetry. now apply patient_from_dict_inv.
    + apply dict_get_set_other. congruence.
Qed.

Section LookupAfterLoad.
Context {num : Type} `{Number num}.
Implicit Types (s : HBS.t num) (h : Heap.t num).

Lemma load_services_grows (ss : list (Service.dict num)) acc h d h' :
  HBS.load_services ss acc h = Ok (d, h') -> exists ext, h' = h ++ ext.
Proof.
  revert acc h. induction ss as [|x ss IH]; intros acc h; simpl.
  - intros [= _ <-]. exists []. now rewrite app_nil_r.
  - destruct (Service.key_service_id x) as [i|]; simpl; [|discriminate].
    destruct (Service.from_dict x) as [v|e]; simpl; [|discriminate].
    intros Hload. apply IH in Hload as [ext ->].
    exists (v :: ext). now rewrite <- app_assoc.
Qed.

Lemma load_bills_grows (bs : list (Bill.dict num)) acc h d h' :
  HBS.load_bills bs acc h = Ok (d, h') -> exists ext, h' = h ++ ext.
Proof.
  revert acc h. induction bs as [|x bs IH]; intros acc h; simpl.
  - intros [= _ <-]. exists []. now rewrite app_nil_r.
  - destruct (Bill.key_bill_id x) as [i|]; simpl; [|discriminate].
    destruct (Bill.from_dict x h) as [[v h1]|e] eqn:Hv; simpl; [|discriminate].
    intros Hload. apply IH in Hload as [ext ->].
    apply bill_from_dict_inv in Hv as (_ & _ & vs & _ & _ & _ & _ & _ & -> & _).
    exists (vs ++ ext). now rewrite <- app_assoc.
Qed.

Lemma load_services_get (ss : list (Service.dict num)) acc h d h' k :
  HBS.load_services ss acc h = Ok (d, h') ->
  match last_with (fun x => has_id k (Service.key_service_id x)) ss with
  | Some x => exists l, Dict.get k d = Some l /\ (l < List.length h')%nat /\
                        Service.to_dict (Heap.deref h' l) = x
  | None => Dict.get k d = Dict.get k acc
  end.
Proof.
  revert acc h. induction ss as [|x ss IH]; intros acc h.
  - simpl. now intros [= <- <-].
  - cbn [HBS.load_services last_with].
    destruct (Service.key_service_id x) as [i|] eqn:Hi; [|discriminate].
    cbn [subscript bind].
    destruct (Service.from_dict x) as [v|e] eqn:Hv; [|discriminate].
    cbn [bind Heap.new_service]. intros Hload.
    pose proof (IH _ _ Hload) as Hrest.
    destruct (last_with _ ss) as [y|]; [exact Hrest|].
    rewrite Hrest. cbn [has_id]. destruct (Z.eqb_spec i k) as [->|Hne].
    + apply load_services_grows in Hload as [ext ->].
      exists (List.length h). split; [apply dict_get_set_same|]. split.
      * rewrite !length_app. simpl. lia.
      * rewrite deref_app_l by (rewrite length_app; simpl; lia).
        rewrite deref_new. symmetry. now apply service_from_dict_inv.
    + apply dict_get_set_other. congruence.
Qed.

Lemma bill_to_dict_app h ext (b : Bill.t num) :
  Forall (fun l => (l < List.length h)%nat) (Bill.services_rendered b) ->
  Bill.to_dict (h ++ ext) b = Bill.to_dict h b.
Proof.
  intros Hlocs. unfold Bill.to_dict. do 2 f_equal.
  apply map_ext_in. intros l Hin. rewrite Forall_forall in Hlocs.
  now rewrite deref_app_l by now apply Hlocs.
Qed.

(** The bill [Bill.from_dict] returns, written back, is the bill of the
    file with its total recomputed. *)
Lemma bill_from_dict_to_dict (x : Bill.dict num) h b h' :
  Bill.from_dict x h = Ok (b, h') ->
  Bill.to_dict h' b = recompute_total x /\
  Forall (fun l => (l < List.length h')%nat) (Bill.services_rendered b).
Proof.
  intros Hb. pose proof Hb as Hok.
  apply bill_from_dict_inv in Hb
    as (i & p & vs & d & Hi & Hp & Hds & Hd & -> & ->).
  split.
  - destruct x as [xi xp xds xd xt]. simpl in Hi, Hp, Hds, Hd. subst.
    unfold Bill.to_dict, recompute_total, with_total, stored_prices. simpl.
    rewrite present_prices.
    now rewrite <- (map_map (Heap.deref (h ++ vs)) Service.to_dict), map_deref_seq.
  - simpl. pose proof (seq_in_store h vs []) as Hseq.
    now rewrite app_nil_r in Hseq.
Qed.

Lemma load_bills_get (bs : list (Bill.dict num)) acc h d h' k :
  HBS.load_bills bs acc h = Ok (d, h') ->
  match last_with (fun x => has_id k (Bill.key_bill_id x)) bs with
  | Some x => exists b, Dict.get k d = Some b /\
                        Bill.to_dict h' b = recompute_total x
  | None => Dict.get k d = Dict.get k acc
  end.
Proof.
  revert acc h. induction bs as [|x bs IH]; intros acc h.
  - simpl. now intros [= <- <-].
  - cbn [HBS.load_bills last_with].
    destruct (Bill.key_bill_id x) as [i|] eqn:Hi; [|discriminate].
    cbn [subscript bind].
    destruct (Bill.from_dict x h) as [[v h1]|e] eqn:Hv; [|discriminate].
    cbn [bind]. intros Hload.
    pose proof (IH _ _ Hload) as Hrest.
    destruct (last_with _ bs) as [y|]; [exact Hrest|].
    rewrite Hrest. cbn [has_id]. destruct (Z.eqb_spec i k) as [->|Hne].
    + apply load_bills_grows in Hload as [ext ->].
      destruct (bill_from_dict_to_dict _ _ _ _ Hv) as [Hdict Hlocs].
      exists v. split; [apply dict_get_set_same|].
      now rewrite bill_to_dict_app.
    + apply dict_get_set_other. congruence.
Qed.

(** X3: after a load, a lookup by id finds the last record of the file
    with that id, and [None] if the file has none, whatever the store
    held before: the patient and the service with the fields of the file,
    the bill with the fields and line items of the file and its total
    recomputed. *)
Theorem lookup_after_load (data : HBS.document num) s0 s k :
  HBS.load_data (HBS.Json data) s0 = Ok s ->
  match last_with (fun x => has_id k (Patient.key_patient_id x))
                  (get_default (HBS.key_patients data) []) with
  | Some x => exists p, HBS.get_patient k s = PyPatient p /\
                        Patient.to_dict p = x
  | None => HBS.get_patient k s = PyNone
  end /\
  match last_with (fun x => has_id k (Service.key_service_id x))
                  (get_default (HBS.key_services data) []) with
  | Some x => exists l, HBS.get_service k s = PyService l /\
                        Service.to_dict (Heap.deref (HBS.objects s) l) = x
  | None => HBS.get_service k s = PyNone
  end /\
  match last_with (fun x => has_id k (Bill.key_bill_id x))
                  (get_default (HBS.key_bills data) []) with
  | Some x => exists b, HBS.get_bill k s = PyBill b /\
                        Bill.to_dict (HBS.objects s) b = recompute_total x
  | None => HBS.get_bill k s = PyNone
  end.
Proof.
  intros Hload.
  apply load_data_json in Hload
    as (ps & ss & h1 & bs & h2 & Hps & Hss & Hbs & ->).
  unfold HBS.get_patient, HBS.get_service, HBS.get_bill.
  cbn [HBS.patients HBS.services HBS.bills HBS.objects].
  split; [|split].
  - pose proof (load_patients_get _ _ _ k Hps) as Hget.
    destruct (last_with _ _) as [x|].
    + destruct Hget as (p & -> & Hp). now exists p.
    + now rewrite Hget.
  - pose proof (load_services_get _ _ _ _ _ k Hss) as Hget.
    destruct (last_with _ _) as [x|].
    + destruct Hget as (l & -> & Hl & Hx). exists l. split; [reflexivity|].
      apply load_bills_grows in Hbs as [ext ->]. now rewrite deref_app_l.
    + now rewrite Hget.
  - pose proof (load_bills_get _ _ _ _ _ k Hbs) as Hget.
    destruct (last_with _ _) as [x|].
    + destruct Hget as (b & -> & Hb). now exists b.
    + now rewrite Hget.
Qed.

End LookupAfterLoad.

(** ** What a call adds and what it keeps *)

Lemma dict_get_keys {V : Type} (k : Z) (v : V) (d : Dict.t V) :
  Dict.get k d = Some v -> In k (Dict.keys d).
Proof.
  intros Hg. apply dict_get_in in Hg.
  change (In (fst (k, v)) (map fst d)). now apply in_map.
Qed.

Section Calls.
Context {num : Type} `{Number num}.
Implicit Types (s : HBS.t num) (h : Heap.t num).

Lemma invariant_service_locs s :
  invariant s ->
  forall k l, In (k, l) (HBS.services s) -> (l < List.length (HBS.objects s))%nat.
Proof. intros [_ [_ Hs] _ _ _ _] k l Hin. now apply (Hs k l). Qed.

Lemma invariant_bill_locs s :
  invariant s ->
  forall k b, In (k, b) (HBS.bills s) ->
    Forall (fun l => (l < List.length (HBS.objects s))%nat)
           (Bill.services_rendered b).
Proof. intros [_ _ [_ Hb] _ _ _] k b Hin. now apply (Hb k b). Qed.

(** X4: on a store a program can hold, a call changes the registries by
    at most one entry, added last under the counter's value:
    [add_patient] the patient, [add_service] the service, [create_bill]
    the bill it returns, and nothing when it returns [None]; every other
    entry reads as before. *)
Theorem call_appends_one_record (c : call num) s :
  reachable s ->
  match c with
  | AddPatient name contact =>
      read_patients (snd (run c s))
      = read_patients s
        ++ [(HBS.next_patient_id s,
             Patient.__init__ (HBS.next_patient_id s) name contact)] /\
      read_services (snd (run c s)) = read_services s /\
      read_bills (snd (run c s)) = read_bills s
  | AddService name price =>
      read_patients (snd (run c s)) = read_patients s /\
      read_services (snd (run c s))
      = read_services s
        ++ [(HBS.next_service_id s,
             Service.__init__ (HBS.next_service_id s) name price)] /\
      read_bills (snd (run c s)) = read_bills s
  | CreateBill _ _ _ =>
      read_patients (snd (run c s)) = read_patients s /\
      read_services (snd (run c s)) = read_services s /\
      match fst (run c s) with
      | PyBill b =>
          read_bills (snd (run c s))
          = read_bills s ++ [(HBS.next_bill_id s, read_bill (HBS.objects s) b)]
      | _ => read_bills (snd (run c s)) = read_bills s
      end
  end.
Proof.
  intros Hreach. apply reachable_invariant in Hreach.
  pose proof (invariant_service_locs s Hreach) as Hslocs.
  pose proof (invariant_bill_locs s Hreach) as Hblocs.
  destruct Hreach as [_ _ _ Hcp Hcs Hcb].
  destruct c as [n ct|n p|pid ids now]; cbn [run].
  - unfold read_patients. simpl. now rewrite dict_set_at_counter.
  - unfold read_patients, read_services, read_bills. simpl.
    rewrite dict_set_at_counter by exact Hcs.
    split; [reflexivity|]. split; [|now apply bills_in_app].
    unfold services_in at 1. rewrite map_app. simpl.
    rewrite deref_new. f_equal. now apply services_in_app.
  - destruct (create_bill_cases pid ids now s) as [->|[Hp Hr]];
      [now repeat split|].
    rewrite create_bill_success by assumption. cbv zeta. cbn [fst snd].
    unfold read_patients, read_services, read_bills.
    cbn [HBS.patients HBS.services HBS.bills HBS.objects].
    rewrite dict_set_at_counter by exact Hcb.
    repeat split. unfold bills_in. now rewrite map_app.
Qed.

(** One call keeps what a lookup finds. *)
Lemma call_keeps_records (c : call num) s k :
  invariant s ->
  (forall p, HBS.get_patient k s = PyPatient p ->
             HBS.get_patient k (snd (run c s)) = PyPatient p) /\
  (forall l, HBS.get_service k s = PyService l ->
             HBS.get_service k (snd (run c s)) = PyService l /\
             Heap.deref (HBS.objects (snd (run c s))) l
             = Heap.deref (HBS.objects s) l) /\
  (forall b, HBS.get_bill k s = PyBill b ->
             HBS.get_bill k (snd (run c s)) = PyBill b /\
             Bill.line_items (HBS.objects (snd (run c s))) b
             = Bill.line_items (HBS.objects s) b).
Proof.
  intros Hinv.
  pose proof (invariant_service_locs s Hinv) as Hslocs.
  pose proof (invariant_bill_locs s Hinv) as Hblocs.
  destruct Hinv as [_ _ _ Hcp Hcs Hcb].
  unfold HBS.get_patient, HBS.get_service, HBS.get_bill.
  destruct c as [n ct|n pr|pid ids now]; cbn [run].
  - simpl. split; [|split].
    + intros p. destruct (Dict.get k (HBS.patients s)) as [p'|] eqn:Hg;
        [|discriminate]. intros [= <-].
      rewrite dict_get_set_other, Hg; [reflexivity|].
      intros ->. apply dict_get_keys in Hg.
      now apply (counter_ok_absent _ _ Hcp).
    + intros l Hl. now split.
    + intros b Hb. now split.
  - simpl. split; [|split].
    + intros p Hp. exact Hp.
    + intros l. destruct (Dict.get k (HBS.services s)) as [l'|] eqn:Hg;
        [|discriminate]. intros [= <-].
      rewrite dict_get_set_other, Hg.
      * split; [reflexivity|]. apply deref_app_l.
        apply (Hslocs k). now apply dict_get_in.
      * intros ->. apply dict_get_keys in Hg.
        now apply (counter_ok_absent _ _ Hcs).
    + intros b. destruct (Dict.get k (HBS.bills s)) as [b'|] eqn:Hg;
        [|discriminate]. intros [= <-]. split; [reflexivity|].
      unfold Bill.line_items. apply map_deref_app.
      apply (Hblocs k). now apply dict_get_in.
  - destruct (create_bill_cases pid ids now s) as [->|[Hp Hr]].
    + simpl. split; [|split]; intros x Hx; [exact Hx|now split|now split].
    + rewrite create_bill_success by assumption. simpl. split; [|split].
      * intros p Hg. exact Hg.
      * intros l Hl. now split.
      * intros b. destruct (Dict.get k (HBS.bills s)) as [b'|] eqn:Hg;
          [|discriminate]. intros [= <-]. split; [|reflexivity].
        rewrite dict_get_set_other, Hg; [reflexivity|].
        intros ->. apply dict_get_keys in Hg.
        now apply (counter_ok_absent _ _ Hcb).
Qed.

Lemma run_all_invariant (cs : list (call num)) s :
  invariant s -> invariant (snd (run_all cs s)).
Proof.
  revert s. induction cs as [|c cs IH]; intros s Hinv; [exact Hinv|].
  rewrite run_all_cons. cbn [snd]. apply IH. now apply run_invariant.
Qed.

(** X5: on a store a program can hold, no sequence of calls removes or
    changes a record: a patient, a service or a bill that a lookup finds
    before the calls is found under the same id after them, the service
    with the same fields and the bill with the same line items. *)
Theorem calls_keep_records (cs : list (call num)) s k :
  reachable s ->
  (forall p, HBS.get_patient k s = PyPatient p ->
             HBS.get_patient k (snd (run_all cs s)) = PyPatient p) /\
  (forall l, HBS.get_service k s = PyService l ->
             HBS.get_service k (snd (run_all cs s)) = PyService l /\
             Heap.deref (HBS.objects (snd (run_all cs s))) l
             = Heap.deref (HBS.objects s) l) /\
  (forall b, HBS.get_bill k s = PyBill b ->
             HBS.get_bill k (snd (run_all cs s)) = PyBill b /\
             Bill.line_items (HBS.objects (snd (run_all cs s))) b
             = Bill.line_items (HBS.objects s) b).
Proof.
  intros Hreach. apply reachable_invariant in Hreach.
  revert s Hreach. induction cs as [|c cs IH]; intros s Hinv.
  - simpl. split; [|split]; intros x Hx; [exact Hx|now split|now split].
  - rewrite run_all_cons. cbn [snd].
    destruct (call_keeps_records c s k Hinv) as (Hp & Hs & Hb).
    destruct (IH (snd (run c s)) (run_invariant c s Hinv)) as (Hp' & Hs' & Hb').
    split; [|split].
    + intros p Hg. now apply Hp', Hp.
    + intros l Hg. destruct (Hs l Hg) as [Hg1 Hd1].
      destruct (Hs' l Hg1) as [Hg2 Hd2]. split; [exact Hg2|congruence].
    + intros b Hg. destruct (Hb b Hg) as [Hg1 Hd1].
      destruct (Hb' b Hg1) as [Hg2 Hd2]. split; [exact Hg2|congruence].
Qed.

(** X6: in a store a program can hold, a lookup by id returns a record
    that carries that id, and every id in use is below the counter of its
    kind, so that the next id is not in use; the counters are at least
    1. *)
Theorem lookup_returns_own_id s k :
  reachable s ->
  (forall p, HBS.get_patient k s = PyPatient p ->
             Patient.patient_id p = k /\ k < HBS.next_patient_id s) /\
  (forall l, HBS.get_service k s = PyService l ->
             Service.service_id (Heap.deref (HBS.objects s) l) = k /\
             k < HBS.next_service_id s) /\
  (forall b, HBS.get_bill k s = PyBill b ->
             Bill.bill_id b = k /\ k < HBS.next_bill_id s) /\
  HBS.get_patient (HBS.next_patient_id s) s = PyNone /\
  HBS.get_service (HBS.next_service_id s) s = PyNone /\
  HBS.get_bill (HBS.next_bill_id s) s = PyNone /\
  1 <= HBS.next_patient_id s /\ 1 <= HBS.next_service_id s /\
  1 <= HBS.next_bill_id s.
Proof.
  intros Hreach. apply reachable_invariant in Hreach.
  destruct Hreach as [[_ Hp] [_ Hs] [_ Hb] Hcp Hcs Hcb].
  unfold HBS.get_patient, HBS.get_service, HBS.get_bill.
  split; [|split; [|split]].
  - intros p. destruct (Dict.get k (HBS.patients s)) as [p'|] eqn:Hg;
      [|discriminate]. intros [= <-]. split.
    + apply (Hp k). now apply dict_get_in.
    + apply (counter_ok_above _ _ Hcp). now apply dict_get_keys in Hg.
  - intros l. destruct (Dict.get k (HBS.services s)) as [l'|] eqn:Hg;
      [|discriminate]. intros [= <-]. split.
    + apply (Hs k). now apply dict_get_in.
    + apply (counter_ok_above _ _ Hcs). now apply dict_get_keys in Hg.
  - intros b. destruct (Dict.get k (HBS.bills s)) as [b'|] eqn:Hg;
      [|discriminate]. intros [= <-]. split.
    + apply (Hb k). now apply dict_get_in.
    + apply (counter_ok_above _ _ Hcb). now apply dict_get_keys in Hg.
  - pose proof (counter_ok_positive _ _ Hcp).
    pose proof (counter_ok_positive _ _ Hcs).
    pose proof (counter_ok_positive _ _ Hcb).
    apply counter_ok_absent, dict_get_none in Hcp, Hcs, Hcb.
    rewrite Hcp, Hcs, Hcb. now repeat split.
Qed.

End Calls.

(** ** Bills and their patients *)

Lemma present_patient_ids (ps : list Patient.t) :
  present (map Patient.key_patient_id (map Patient.to_dict ps))
  = map Patient.patient_id ps.
Proof. induction ps as [|p ps IH]; simpl; [reflexivity|now rewrite IH]. Qed.

Section BillsAndPatients.
Context {num : Type} `{Number num}.
Implicit Types (s : HBS.t num) (h : Heap.t num).

Lemma load_bills_patient (bs : list (Bill.dict num)) acc h d h' :
  HBS.load_bills bs acc h = Ok (d, h') ->
  forall k b, In (k, b) d ->
    In (k, b) acc \/
    exists x, In x bs /\ Bill.key_patient_id x = Some (Bill.patient_id b).
Proof.
  revert acc h. induction bs as [|x bs IH]; intros acc h; simpl.
  - intros [= <- <-] k b Hin. now left.
  - destruct (Bill.key_bill_id x) as [i|]; simpl; [|discriminate].
    destruct (Bill.from_dict x h) as [[v h1]|e] eqn:Hv; simpl; [|discriminate].
    intros Hload k b Hin.
    destruct (IH _ _ Hload k b Hin) as [Hacc|(y & Hy & Hp)].
    + apply dict_in_set in Hacc as [[_ ->]|Hacc]; [|now left].
      right. exists x. split; [now left|].
      apply bill_from_dict_inv in Hv
        as (i' & p & vs & dt & _ & Hp & _ & _ & _ & ->). exact Hp.
    + right. exists y. split; [now right|exact Hp].
Qed.

(** X7: as long as every file loaded lists the patient of each of its
    bills, every bill of the registry is for a patient of the registry,
    and the file [save_data] writes lists the patient of each of its
    bills. *)
Theorem bills_reference_registered_patients s :
  reachable_with consistent_file s ->
  bills_reference_patients s /\
  consistent_file (HBS.Json (HBS.save_data s)).
Proof.
  intros Hreach.
  assert (Hrefs : bills_reference_patients s).
  { induction Hreach as [|f s s' Hf _ IH Hload|c s _ IH].
    - intros k b [].
    - destruct f as [| |data].
      + simpl in Hload. injection Hload as <-. exact IH.
      + discriminate Hload.
      + apply load_data_json in Hload
          as (ps & ss & h1 & bs & h2 & Hps & _ & Hbs & ->).
        intros k b Hin. simpl in Hin |- *.
        destruct (load_bills_patient _ _ _ _ _ Hbs k b Hin) as [[]|(x & Hx & Hp)].
        simpl in Hf. rewrite Forall_forall in Hf.
        apply dict_contains_in. apply (load_patients_keys _ _ _ Hps).
        right. now apply (Hf x Hx).
    - destruct c as [n ct|n pr|pid ids now]; cbn [run].
      + intros k b Hin. simpl in Hin |- *. apply dict_contains_in.
        apply dict_keys_set_in. right. apply dict_contains_in.
        now apply (IH k).
      + exact IH.
      + destruct (create_bill_cases pid ids now s) as [->|[Hp Hr]];
          [exact IH|].
        rewrite create_bill_success by assumption.
        intros k b Hin. simpl in Hin |- *.
        apply dict_in_set in Hin as [[_ ->]|Hin]; [exact Hp|now apply (IH k)]. }
  split; [exact Hrefs|].
  apply reachable_with_invariant in Hreach.
  destruct Hreach as [[_ Hpid] _ _ _ _ _].
  simpl. apply Forall_forall. intros x Hx p Hp.
  apply in_map_iff in Hx as (b & <- & Hb). simpl in Hp. injection Hp as <-.
  unfold patient_ids. simpl. rewrite present_patient_ids.
  apply in_map_iff in Hb as ([k b'] & Hsnd & Hin). simpl in Hsnd. subst b'.
  specialize (Hrefs k b Hin). apply dict_contains_in in Hrefs.
  apply in_map_iff in Hrefs as ([k' p] & Hk & Hpin). simpl in Hk.
  rewrite <- Hk. apply in_map_iff. exists p. split.
  - now apply (Hpid k').
  - apply in_map_iff. now exists (k', p).
Qed.

End BillsAndPatients.

(** ** Loading, then saving *)

Lemma load_patients_values (ps : list Patient.dict) (acc d : Dict.t Patient.t) :
  HBS.load_patients ps acc = Ok d ->
  NoDup (Dict.keys acc ++ present (map Patient.key_patient_id ps)) ->
  map Patient.to_dict (Dict.values d)
  = map Patient.to_dict (Dict.values acc) ++ ps.
Proof.
  revert acc. induction ps as [|x ps IH]; intros acc; simpl.
  - intros [= <-] _. now rewrite app_nil_r.
  - destruct (Patient.key_patient_id x) as [i|] eqn:Hi; simpl; [|discriminate].
    destruct (Patient.from_dict x) as [v|e] eqn:Hv; simpl; [|discriminate].
    intros Hload Hnd.
    rewrite dict_set_absent in Hload
      by (apply NoDup_remove_2 in Hnd; rewrite in_app_iff in Hnd; tauto).
    rewrite (IH _ Hload).
    + unfold Dict.values. rewrite !map_app, <- app_assoc. simpl.
      apply patient_from_dict_inv in Hv. now rewrite <- Hv.
    + unfold Dict.keys. rewrite map_app, <- app_assoc. exact Hnd.
Qed.

Section LoadSave.
Context {num : Type} `{Number num}.
Implicit Types (s : HBS.t num) (h : Heap.t num).

Lemma load_services_values (ss : list (Service.dict num)) acc h d h' :
  HBS.load_services ss acc h = Ok (d, h') ->
  NoDup (Dict.keys acc ++ present (map Service.key_service_id ss)) ->
  (forall k l, In (k, l) acc -> (l < List.length h)%nat) ->
  map (fun l => Service.to_dict (Heap.deref h' l)) (Dict.values d)
  = map (fun l => Service.to_dict (Heap.deref h l)) (Dict.values acc) ++ ss /\
  (forall k l, In (k, l) d -> (l < List.length h')%nat).
Proof.
  revert acc h. induction ss as [|x ss IH]; intros acc h; simpl.
  - intros [= <- <-] _ Hacc. now rewrite app_nil_r.
  - destruct (Service.key_service_id x) as [i|] eqn:Hi; simpl; [|discriminate].
    destruct (Service.from_dict x) as [v|e] eqn:Hv; simpl; [|discriminate].
    intros Hload Hnd Hacc.
    rewrite dict_set_absent in Hload
      by (apply NoDup_remove_2 in Hnd; rewrite in_app_iff in Hnd; tauto).
    destruct (IH _ _ Hload) as [Hvalues Hlocs].
    + unfold Dict.keys. rewrite map_app, <- app_assoc. exact Hnd.
    + intros k l Hin. rewrite length_app. simpl.
      apply in_app_iff in Hin as [Hin|[[= <- <-]|[]]]; [|lia].
      specialize (Hacc _ _ Hin). lia.
    + split; [|exact Hlocs]. rewrite Hvalues.
      unfold Dict.values. rewrite !map_app, <- app_assoc. simpl.
      rewrite deref_new. apply service_from_dict_inv in Hv. rewrite <- Hv.
      f_equal. rewrite !map_map. apply map_ext_in. intros [k l] Hin. simpl.
      now rewrite deref_app_l by now apply (Hacc k).
Qed.

Lemma load_bills_values (bs : list (Bill.dict num)) acc h d h' :
  HBS.load_bills bs acc h = Ok (d, h') ->
  NoDup (Dict.keys acc ++ present (map Bill.key_bill_id bs)) ->
  (forall k b, In (k, b) acc ->
     Forall (fun l => (l < List.length h)%nat) (Bill.services_rendered b)) ->
  map (Bill.to_dict h') (Dict.values d)
  = map (Bill.to_dict h) (Dict.values acc) ++ map recompute_total bs /\
  (forall k b, In (k, b) d ->
     Forall (fun l => (l < List.length h')%nat) (Bill.services_rendered b)).
Proof.
  revert acc h. induction bs as [|x bs IH]; intros acc h; simpl.
  - intros [= <- <-] _ Hacc. now rewrite app_nil_r.
  - destruct (Bill.key_bill_id x) as [i|] eqn:Hi; simpl; [|discriminate].
    destruct (Bill.from_dict x h) as [[v h1]|e] eqn:Hv; simpl; [|discriminate].
    intros Hload Hnd Hacc.
    rewrite dict_set_absent in Hload
      by (apply NoDup_remove_2 in Hnd; rewrite in_app_iff in Hnd; tauto).
    destruct (bill_from_dict_to_dict _ _ _ _ Hv) as [Hdict Hvlocs].
    apply bill_from_dict_inv in Hv
      as (i' & p & vs & dt & _ & _ & _ & _ & Hh1 & _).
    destruct (IH _ _ Hload) as [Hvalues Hlocs].
    + unfold Dict.keys. rewrite map_app, <- app_assoc. exact Hnd.
    + intros k b Hin.
      apply in_app_iff in Hin as [Hin|[[= <- <-]|[]]]; [|exact Hvlocs].
      eapply Forall_impl; [|exact (Hacc _ _ Hin)]. simpl. intros l Hl.
      rewrite Hh1, length_app. lia.
    + split; [|exact Hlocs]. rewrite Hvalues.
      unfold Dict.values. rewrite !map_app, <- app_assoc. simpl.
      rewrite Hdict. f_equal. rewrite !map_map. apply map_ext_in.
      intros [k b] Hin. simpl. rewrite Hh1.
      now rewrite bill_to_dict_app by now apply (Hacc k).
Qed.

(** X8: a file without repeated ids, loaded and saved, is written back as
    it was read, record by record and in order, but for the total of each
    bill, which is written as the sum of the prices of its line items, and
    for an absent array, which is written as an empty one. *)
Theorem load_save_normalises (data : HBS.document num) s0 s :
  HBS.load_data (HBS.Json data) s0 = Ok s ->
  NoDup (patient_ids data) -> NoDup (service_ids data) ->
  NoDup (bill_ids data) ->
  HBS.save_data s = normalised data.
Proof.
  intros Hload Hp Hs Hb.
  apply load_data_json in Hload
    as (ps & ss & h1 & bs & h2 & Hps & Hss & Hbs & ->).
  apply load_patients_values in Hps; [|exact Hp].
  apply load_services_values in Hss as [Hss Hslocs];
    [|exact Hs|intros ? ? []].
  pose proof (load_bills_grows _ _ _ _ _ Hbs) as [ext ->].
  apply load_bills_values in Hbs as [Hbs _]; [|exact Hb|intros ? ? []].
  unfold HBS.save_data, normalised. simpl in *.
  rewrite Hps, Hbs. do 2 f_equal. rewrite <- Hss.
  unfold Dict.values. rewrite !map_map. apply map_ext_in.
  intros [k l] Hin. simpl. now rewrite deref_app_l by now apply (Hslocs k).
Qed.

(** X9: [to_dict] and [from_dict] are inverse on patients and on
    services: [from_dict] returns the record [to_dict] was given, and
    what [from_dict] returns is written back as the object it read. On
    bills they are inverse up to the total: the bill read from what
    [to_dict] wrote has new objects for its line items and is written
    back the same with its total recomputed. *)
Theorem to_dict_from_dict_inverse :
  (forall p, Patient.from_dict (Patient.to_dict p) = Ok p) /\
  (forall x p, Patient.from_dict x = Ok p -> Patient.to_dict p = x) /\
  (forall v : Service.t num, Service.from_dict (Service.to_dict v) = Ok v) /\
  (forall (x : Service.dict num) v,
     Service.from_dict x = Ok v -> Service.to_dict v = x) /\
  (forall h (b : Bill.t num) h0,
     exists b',
       Bill.from_dict (Bill.to_dict h b) h0
       = Ok (b', h0 ++ Bill.line_items h b) /\
       Bill.to_dict (h0 ++ Bill.line_items h b) b'
       = recompute_total (Bill.to_dict h b)) /\
  (forall (x : Bill.dict num) h b h',
     Bill.from_dict x h = Ok (b, h') ->
     Bill.to_dict h' b = recompute_total x).
Proof.
  split; [|split; [|split; [|split; [|split]]]].
  - intros p. now apply patient_from_dict_inv.
  - intros x p Hp. symmetry. now apply patient_from_dict_inv.
  - intros v. now apply service_from_dict_inv.
  - intros x v Hv. symmetry. now apply service_from_dict_inv.
  - intros h b h0.
    assert (Hb : Bill.from_dict (Bill.to_dict h b) h0
                 = Ok (Bill.mk (Bill.bill_id b) (Bill.patient_id b)
                         (seq (List.length h0)
                              (List.length (Bill.line_items h b)))
                         (Bill.bill_date b)
                         (py_sum (map Service.price (Bill.line_items h b))),
                       h0 ++ Bill.line_items h b)).
    { apply bill_from_dict_inv.
      exists (Bill.bill_id b), (Bill.patient_id b), (Bill.line_items h b),
             (Bill.bill_date b).
      split; [reflexivity|]. split; [reflexivity|]. split.
      - simpl. unfold Bill.line_items. now rewrite map_map.
      - split; [reflexivity|]. split; reflexivity. }
    eexists. split; [exact Hb|]. now apply (bill_from_dict_to_dict _ h0).
  - intros x h b h' Hb. now apply (bill_from_dict_to_dict x h).
Qed.

(** X10: the service ids the registry does not know have no part in a
    bill: [create_bill] returns the same, and leaves the same store, as on
    the list without them. *)
Theorem create_bill_ignores_unknown_ids pid ids now s :
  HBS.create_bill pid ids now s
  = HBS.create_bill pid (known_ids s ids) now s.
Proof.
  unfold HBS.create_bill. rewrite !collect_services_resolved.
  replace (resolved s (known_ids s ids)) with (resolved s ids); [reflexivity|].
  induction ids as [|i ids IH]; [reflexivity|].
  simpl. unfold Dict.contains.
  destruct (Dict.get i (HBS.services s)) as [l|] eqn:Hg; simpl.
  - rewrite Hg. simpl. f_equal. exact IH.
  - exact IH.
Qed.

End LoadSave.

(** ** What [save_data] writes can be loaded *)

Section SavedFile.
Context {num : Type} `{Number num}.
Implicit Types (s : HBS.t num).

Lemma save_data_complete s : complete (HBS.save_data s).
Proof.
  repeat split; simpl; apply Forall_forall; intros x Hx;
    apply in_map_iff in Hx as (y & <- & _).
  - repeat split; discriminate.
  - repeat split; discriminate.
  - split; [discriminate|]. split; [discriminate|]. split; [discriminate|].
    eexists. split; [reflexivity|]. apply Forall_forall. intros z Hz.
    apply in_map_iff in Hz as (l & <- & _). repeat split; discriminate.
Qed.

(** X11: whatever the store holds, the file [save_data] writes has every
    key a load subscripts, and a load of it returns, into any store. *)
Theorem saved_file_loads s s0 :
  document_missing (HBS.save_data s) = [] /\
  exists s', HBS.load_data (HBS.Json (HBS.save_data s)) s0 = Ok s'.
Proof.
  split.
  - unfold document_missing, HBS.save_data. simpl.
    assert (Hnil : forall (A B : Type) (f : A -> list B) (l : list A),
              (forall x, In x l -> f x = []) -> flat_map f l = []).
    { intros A B f l Hall. induction l as [|x l IH]; [reflexivity|].
      simpl. rewrite Hall by now left. apply IH. intros y Hy.
      apply Hall. now right. }
    rewrite !Hnil; [reflexivity| | |].
    + intros x Hx. apply in_map_iff in Hx as (b & <- & _).
      unfold bill_missing. simpl. rewrite app_nil_r. apply Hnil. intros y Hy.
      now apply in_map_iff in Hy as (l & <- & _).
    + intros x Hx. now apply in_map_iff in Hx as (l & <- & _).
    + intros x Hx. now apply in_map_iff in Hx as (p & <- & _).
  - destruct (save_data_complete s) as (Hp & Hs & Hb).
    unfold HBS.load_data.
    destruct (load_patients_total _ Dict.empty Hp) as [ps ->]. cbn [bind].
    destruct (load_services_total _ Dict.empty (HBS.objects s0) Hs)
      as (ss & h1 & ->). cbn [bind].
    destruct (load_bills_total _ Dict.empty h1 Hb) as (bs & h2 & ->).
    cbn [bind]. rewrite !py_max_with_1. cbn [bind]. eauto.
Qed.

End SavedFile.

(** ** The further properties on the sample data *)

Lemma example_store_reachable (allowed : HBS.file float -> Prop) :
  reachable_with allowed example_store.
Proof.
  apply (reach_call _ (AddService "Consult" 50%float)).
  apply (reach_call _ (AddService "X-Ray" 100%float)).
  apply (reach_call _ (AddPatient "Ann" "555-0100")).
  apply reach_fresh.
Qed.

(** X2 on a file whose second service has no price and whose bill has no
    date: the load raises [KeyError] for ['price']. *)
Lemma load_data_first_missing_key_witness :
  HBS.load_data (HBS.Json incomplete_file) HBS.fresh = Raise (KeyError "price").
Proof. exact (load_data_first_missing_key incomplete_file HBS.fresh). Defined.

(** X3 on a file with two records for patient 1: the second one is found,
    and patient 3 is not. *)
Lemma lookup_after_load_witness :
  exists s,
    HBS.__init__ (HBS.Json duplicate_file) = Ok s /\
    HBS.get_patient 1 s = PyPatient (Patient.__init__ 1 "Anna" "555-0199") /\
    HBS.get_patient 3 s = PyNone.
Proof.
  destruct (HBS.__init__ (HBS.Json duplicate_file)) as [s|e] eqn:Hs;
    [|vm_compute in Hs; discriminate Hs].
  exists s. split; [reflexivity|].
  destruct (lookup_after_load duplicate_file HBS.fresh s 1 Hs) as (H1 & _ & _).
  destruct (lookup_after_load duplicate_file HBS.fresh s 3 Hs) as (H3 & _ & _).
  cbn in H1, H3. destruct H1 as (p & Hget & Hdict). split; [|exact H3].
  rewrite Hget. destruct p as [i n c]. now injection Hdict as -> -> ->.
Defined.

(** X4 at the example store: [add_service] appends service 3. *)
Lemma call_appends_one_record_witness :
  read_services (snd (HBS.add_service "MRI" 300%float example_store))
  = read_services example_store ++ [(3, Service.__init__ 3 "MRI" 300%float)] /\
  read_patients (snd (HBS.add_service "MRI" 300%float example_store))
  = read_patients example_store.
Proof.
  destruct (call_appends_one_record (AddService "MRI" 300%float) example_store
              (example_store_reachable _)) as (Hp & Hs & _).
  split; [exact Hs|exact Hp].
Defined.

(** X5 at the example store: patient 1 and service 2 are still there
    after a patient, a service and a bill more. *)
Lemma calls_keep_records_witness :
  HBS.get_patient 1
    (snd (run_all [AddPatient "Bob" "555-0101"; AddService "MRI" 300%float;
                   CreateBill 1 [3; 1] "2024-01-01 10:00:00"] example_store))
  = PyPatient (Patient.__init__ 1 "Ann" "555-0100") /\
  HBS.get_service 2
    (snd (run_all [AddPatient "Bob" "555-0101"; AddService "MRI" 300%float;
                   CreateBill 1 [3; 1] "2024-01-01 10:00:00"] example_store))
  = PyService 1%nat.
Proof.
  split.
  - apply (proj1 (calls_keep_records _ example_store 1
                    (example_store_reachable _))).
    reflexivity.
  - apply (proj1 (proj2 (calls_keep_records _ example_store 2
                           (example_store_reachable _)))).
    reflexivity.
Defined.

(** X6 at the example store: service 2 is filed under 2, below the
    counter 3. *)
Lemma lookup_returns_own_id_witness :
  Service.service_id (Heap.deref (HBS.objects example_store) 1%nat) = 2 /\
  2 < HBS.next_service_id example_store.
Proof.
  apply (proj1 (proj2 (lookup_returns_own_id example_store 2
                         (example_store_reachable _)))).
  reflexivity.
Defined.

(** X7 at the example store after a bill for patient 1. *)
Lemma bills_reference_registered_patients_witness :
  bills_reference_patients
    (snd (HBS.create_bill 1 [1] "2024-01-01 10:00:00" example_store)).
Proof.
  apply (proj1 (bills_reference_registered_patients _
    (reach_call consistent_file (CreateBill 1 [1] "2024-01-01 10:00:00")
       example_store (example_store_reachable _)))).
Defined.

(** X8 on the file whose bill stores 999.0 for line items of 100.0 and
    50.0: it is written back with 150.0. *)
Lemma load_save_normalises_witness :
  exists s,
    HBS.__init__ (HBS.Json tampered_file) = Ok s /\
    HBS.save_data s = normalised tampered_file /\
    map Bill.key_total_amount
        (get_default (HBS.key_bills (normalised tampered_file)) [])
    = [Some 150%float].
Proof.
  destruct (HBS.__init__ (HBS.Json tampered_file)) as [s|e] eqn:Hs;
    [|vm_compute in Hs; discriminate Hs].
  exists s. split; [reflexivity|]. split; [|vm_compute; reflexivity].
  apply (load_save_normalises tampered_file HBS.fresh s Hs).
  - repeat constructor. intros [].
  - repeat constructor; [intros [Heq|[]]; discriminate Heq|intros []].
  - repeat constructor. intros [].
Defined.
